(** * httperr: HTTP status codes attached to Go errors

    A shallow embedding of the Go package [httperr] (file httperr.go) and
    the properties of its specification.

    Layout
    - Go values: strings are byte strings ([string]), [int] is [Z] (the
      package only compares and prints status codes, it never does
      arithmetic on them), a nil interface is [None].
    - [Library]: the functions of the Go standard library the package calls
      (net/http, fmt, strconv, mime, encoding/json), as a type class.  The
      package is embedded over any instance of it.
    - [http.Writer]: what the implementation behind an http.ResponseWriter
      answers to the calls made on it, as a type class; RespondJSON is
      embedded over any instance, as an [action] on the calls made.
    - [Go]: an executable model of those library functions, and the
      instances [Go.std] and [Go.http.response] built from it.
    - Theorems: the general ones hold for every [Library] and every
      [http.Writer]; the ones about concrete texts and bytes are evaluated
      on [Go.std], the ones about concrete calls on [Go.http.response]. *)

From Stdlib Require Import ZArith String Ascii List Bool Lia DecimalString DecimalPos.
From stdpp Require Import base option strings gmap.

Open Scope Z_scope.
Open Scope string_scope.

(** ** Go values seen by the package *)

(** [error] is Go's [error] interface, by dynamic type:
    - [errorString s]: an error of another package's type that offers
      nothing but [Error() string] (xerrors.New, xerrors.Errorf, the errors
      of encoding/json and io);
    - [ptr p]: a [*httpError] of this package, not the nil pointer;
    - [foreignError f]: an error of any other type, given by what this
      package can observe of it.
    Types that override the fmt verbs (fmt.Formatter) with a text other
    than their [Error()] are not represented. *)
Inductive error : Type :=
| errorString (s : string)
| ptr (p : httpError)
| foreignError (f : foreign)

(** type httpError struct { code int; err error } *)
with httpError : Type :=
| mk_httpError (code : Z) (err : option error)

(** A value of a type declared outside the package:
    [f_Error] its [Error()] text; [f_StatusCode] is [Some c] when the type
    has a method [StatusCode() int], which returns [c]; [f_UnmarshalJSON]
    tells whether the type has [UnmarshalJSON([]byte) error];
    [f_json] is the result of json.Marshal on the value. *)
with foreign : Type :=
| mk_foreign (f_Error : string) (f_StatusCode : option Z)
             (f_UnmarshalJSON : bool) (f_json : string + error).

Definition code (e : httpError) : Z := let 'mk_httpError c _ := e in c.
Definition err (e : httpError) : option error := let 'mk_httpError _ x := e in x.

Definition f_Error (f : foreign) : string := let 'mk_foreign s _ _ _ := f in s.
Definition f_StatusCode (f : foreign) : option Z := let 'mk_foreign _ c _ _ := f in c.
Definition f_UnmarshalJSON (f : foreign) : bool := let 'mk_foreign _ _ u _ := f in u.
Definition f_json (f : foreign) : string + error := let 'mk_foreign _ _ _ j := f in j.

(** [interface{}]: an error, or a value that does not implement [error]
    (the nil interface included), of which RespondJSON observes the result
    of json.Marshal only. *)
Inductive value : Type :=
| VError (e : error)
| VOther (json : string + error).

(** type Response struct, the payload on the wire. *)
Record Response : Type := {
  Message : string;       (* `json:"message"` *)
  Error : string;         (* `json:"error"` *)
  StatusCode : Z          (* `json:"statusCode"` *)
}.

(** The zero value [var tmp Response]. *)
Definition Response_zero : Response :=
  {| Message := EmptyString; Error := EmptyString; StatusCode := 0 |}.

Module http.

Definition StatusContinue : Z := 100.
Definition StatusOK : Z := 200.
Definition StatusMultipleChoices : Z := 300.
Definition StatusBadRequest : Z := 400.
Definition StatusNotFound : Z := 404.
Definition StatusMethodNotAllowed : Z := 405.
Definition StatusInternalServerError : Z := 500.

(** http.Header: canonical key to values. *)
Definition Header_Get (h : gmap string (list string)) (key : string) : string :=
  match h !! key with
  | Some (v :: _) => v
  | _ => EmptyString
  end.

(** *http.Response, as FromResponse reads it.  [Body] is what
    ioutil.ReadAll(r.Body) returns: the bytes read and the read error. *)
Record Response : Type := {
  StatusCode : Z;
  Header : gmap string (list string);
  Body : string * option error
}.

(** http.ResponseWriter is an interface.  A writer is followed by the calls
    made on it, oldest first: w.Header().Set(key, val),
    w.WriteHeader(statusCode) and w.Write(b). *)
Inductive call : Type :=
| Header_Set (key val : string)
| WriteHeader (statusCode : Z)
| Write (b : string).

Definition ResponseWriter : Type := list call.

(** What the implementation behind the interface answers, from the calls
    made before: whether a call panics (the writers of net/http panic in
    WriteHeader on a status code that does not have three digits), and the
    error that a Write returns. *)
Class Writer : Type := {
  panics : ResponseWriter -> call -> bool;
  Write_error : ResponseWriter -> string -> option error
}.

End http.

(** ** Calls on a writer

    A function that calls the writer takes the calls made so far and gives
    the calls made when it stops, and what it returned unless a call
    panicked: nothing is run after a panic. *)

Inductive outcome (A : Type) : Type :=
| returned (a : A)
| panicked.

Arguments returned {A} a.
Arguments panicked {A}.

Definition action (A : Type) : Type :=
  http.ResponseWriter -> http.ResponseWriter * outcome A.

#[export] Instance action_ret : MRet action :=
  fun A (a : A) w => (w, returned a).

#[export] Instance action_bind : MBind action :=
  fun A B (f : A -> action B) (m : action A) w =>
    match m w with
    | (w', returned a) => f a w'
    | (w', panicked) => (w', panicked)
    end.

(** ** The standard library, as the package uses it *)

Class Library : Type := {
  (** http.StatusText *)
  http_StatusText : Z -> string;
  (** strconv.Quote, which the verb %q applies to a text *)
  strconv_Quote : string -> string;
  (** fmt.Sprintf on a caller's format and arguments *)
  fmt_Sprintf : string -> list value -> string;
  (** mime.ParseMediaType: the media type and the error (the parameter
      map is not used by the package) *)
  mime_ParseMediaType : string -> string * option error;
  (** json.Marshal on a Response; it has no error case for a struct of two
      strings and an int *)
  json_Marshal : Response -> string;
  (** json.Unmarshal(data, &tmp): the struct before, the struct after and
      the error *)
  json_Unmarshal : string -> Response -> Response * option error
}.

(** The verb %d on an int. *)
Definition fmt_d (n : Z) : string := NilEmpty.string_of_int (Z.to_int n).

(** ** The package *)

Section httperr.
Context {L : Library} {W : http.Writer}.

(** The method [Error() string], dispatched on the dynamic type; the
    [*httpError] case is

    func (e *httpError) Error() string {
      status := http.StatusText(e.code)
      if e.err == nil { return fmt.Sprintf("%d %s", e.code, status) }
      return fmt.Sprintf("%d %s: %q", e.code, status, e.err)
    } *)
Fixpoint error_Error (e : error) : string :=
  match e with
  | errorString s => s
  | ptr p => httpError_Error p
  | foreignError f => f_Error f
  end
with httpError_Error (e : httpError) : string :=
  let status := http_StatusText (code e) in
  match err e with
  | None => fmt_d (code e) +:+ " " +:+ status
  | Some cause =>
      fmt_d (code e) +:+ " " +:+ status +:+ ": " +:+ strconv_Quote (error_Error cause)
  end.

Definition httpError_StatusCode (e : httpError) : Z := code e.

Definition httpError_Unwrap (e : httpError) : option error := err e.

(** xerrors.New and xerrors.Errorf: an error with that text. *)
Definition errors_New (text : string) : error := errorString text.

Definition errors_Errorf (format : string) (a : list value) : error :=
  errorString (fmt_Sprintf format a).

(** New creates a new HTTP error *)
Definition New (code : Z) (err : option error) : error :=
  ptr (mk_httpError code err).

(** Errorf creates a new HTTP error by formating a message *)
Definition Errorf (code : Z) (format : string) (args : list value) : error :=
  ptr (mk_httpError code (Some (errors_Errorf format args))).

Definition BadRequest (err : option error) : error :=
  New http.StatusBadRequest err.

Definition InternalServerError (err : option error) : error :=
  New http.StatusInternalServerError err.

Definition NotFound (err : option error) : error :=
  New http.StatusNotFound err.

Definition MethodNotAllowed (err : option error) : error :=
  New http.StatusMethodNotAllowed err.

Definition httpError_MarshalJSON (e : httpError) : string :=
  let err_ := http_StatusText (code e) in
  let msg := match err e with
             | Some cause => error_Error cause
             | None => err_
             end in
  json_Marshal {| Message := msg; Error := err_; StatusCode := code e |}.

Definition IsInformational (code : Z) : bool :=
  ((http.StatusContinue <=? code) && (code <? http.StatusOK))%Z.

Definition IsSuccess (code : Z) : bool :=
  ((http.StatusOK <=? code) && (code <? http.StatusMultipleChoices))%Z.

Definition IsRedirect (code : Z) : bool :=
  ((http.StatusMultipleChoices <=? code) && (code <? http.StatusBadRequest))%Z.

Definition IsClientError (code : Z) : bool :=
  ((http.StatusBadRequest <=? code) && (code <? http.StatusInternalServerError))%Z.

Definition IsServerError (code : Z) : bool :=
  ((http.StatusInternalServerError <=? code) && (code <? 600))%Z.

Definition IsError (code : Z) : bool :=
  ((http.StatusBadRequest <=? code) && (code <? 600))%Z.

(** The switch of FromResponse on the media type. *)
Definition is_text_mediatype (mediatype : string) : bool :=
  String.eqb mediatype "text/plain" || String.eqb mediatype "text/html"
  || String.eqb mediatype "text/xml".

(** FromResponse creates a new HTTP error from a response.
    The fixed formats of its two xerrors.Errorf calls are written out: %q
    and %s of an error print its text, quoted and as it is.  The deferred
    r.Body.Close() does not bear on the result and is left out. *)
Definition FromResponse (r : http.Response) : error :=
  let '(data, err) := http.Body r in
  match err with
  | Some err =>
      New (http.StatusCode r)
          (Some (errorString ("Failed to read response body: "
                              +:+ strconv_Quote (error_Error err))))
  | None =>
      let '(mediatype, _) :=
        mime_ParseMediaType (http.Header_Get (http.Header r) "Content-Type") in
      if is_text_mediatype mediatype then
        New (http.StatusCode r) (Some (errors_New data))
      else
        let tmp := Response_zero in
        let '(tmp, err) := json_Unmarshal data tmp in
        match err with
        | Some err =>
            New (http.StatusCode r)
                (Some (errorString ("Error parsing response: " +:+ error_Error err)))
        | None => New (http.StatusCode r) (Some (errors_New (Message tmp)))
        end
  end.

(** The type assertion [err.(StatusCoder)] followed by the call
    [coder.StatusCode()]: [None] when the dynamic type lacks the method. *)
Definition StatusCoder (e : error) : option Z :=
  match e with
  | errorString _ => None
  | ptr p => Some (httpError_StatusCode p)
  | foreignError f => f_StatusCode f
  end.

(** The type assertion [err.(json.Unmarshaler)].  [*httpError] has
    MarshalJSON but no UnmarshalJSON. *)
Definition json_Unmarshaler (e : error) : option foreign :=
  match e with
  | errorString _ => None
  | ptr _ => None
  | foreignError f => if f_UnmarshalJSON f then Some f else None
  end.

(** A call on the writer that returns nothing: w.Header().Set(key, val)
    and w.WriteHeader(statusCode). *)
Definition w_call (c : http.call) : action unit :=
  fun w => ((w ++ [c])%list, if http.panics w c then panicked else returned tt).

(** w.Write(b), of which the error is used. *)
Definition w_Write (b : string) : action (option error) :=
  fun w => ((w ++ [http.Write b])%list,
            if http.panics w (http.Write b) then panicked
            else returned (http.Write_error w b)).

(** Encode of a json.Encoder on the writer, from the result of
    marshalling its argument: an error of marshalling is returned and
    nothing is written; otherwise the text and a newline go to the writer
    in one Write, and the error of that Write is returned. *)
Definition Encode (marshalled : string + error) : action (option error) :=
  match marshalled with
  | inl b => w_Write (b +:+ String "010" EmptyString)
  | inr e => mret (Some e)
  end.

(** RespondJSON sends a JSON encoded HTTP response *)
Definition RespondJSON (w : http.ResponseWriter) (x : value)
  : http.ResponseWriter * outcome (option error) :=
  (w_call (http.Header_Set "Content-Type" "application/json");;
   match x with
   | VError err =>
       let code := match StatusCoder err with
                   | Some c => c
                   | None => http.StatusInternalServerError
                   end in
       w_call (http.WriteHeader code);;
       match json_Unmarshaler err with
       | Some u => Encode (f_json u)
       | None =>
           (* enc.Encode(New(code, err)): the argument is a *httpError, a
              json.Marshaler; Encode calls its MarshalJSON and copies the
              text, which json.Marshal has compacted and escaped already *)
           Encode (inl (httpError_MarshalJSON (mk_httpError code (Some err))))
       end
   | VOther json =>
       w_call (http.WriteHeader http.StatusOK);;
       Encode json
   end) w.

End httperr.

(** ** An executable model of the standard library

    The models follow the Go sources of the time of the package (Go 1.13);
    they work on bytes, [Z] in 0..255. *)

Module Go.

Local Open Scope Z_scope.
Local Open Scope list_scope.

Definition byte_of (c : ascii) : Z := Z.of_N (N_of_ascii c).
Definition ascii_of (b : Z) : ascii := ascii_of_N (Z.to_N b).

Definition bytes (s : string) : list Z := map byte_of (list_ascii_of_string s).
Definition str (l : list Z) : string := string_of_list_ascii (map ascii_of l).

Definition between (lo x hi : Z) : bool := (lo <=? x) && (x <=? hi).

(** Package unicode/utf8. *)
Module utf8.

Definition RuneError : Z := 0xFFFD.
Definition RuneSelf : Z := 0x80.
Definition MaxRune : Z := 0x10FFFF.

(** The table [first] with [acceptRanges]: for a leading byte, the
    length of the sequence and the range accepted for the second byte;
    [None] for the bytes that start no sequence. *)
Definition first (s0 : Z) : option (nat * Z * Z) :=
  if between 0xC2 s0 0xDF then Some (2%nat, 0x80, 0xBF)
  else if s0 =? 0xE0 then Some (3%nat, 0xA0, 0xBF)
  else if between 0xE1 s0 0xEC then Some (3%nat, 0x80, 0xBF)
  else if s0 =? 0xED then Some (3%nat, 0x80, 0x9F)
  else if between 0xEE s0 0xEF then Some (3%nat, 0x80, 0xBF)
  else if s0 =? 0xF0 then Some (4%nat, 0x90, 0xBF)
  else if between 0xF1 s0 0xF3 then Some (4%nat, 0x80, 0xBF)
  else if s0 =? 0xF4 then Some (4%nat, 0x80, 0x8F)
  else None.

Definition cont (b : Z) : bool := between 0x80 b 0xBF.
Definition low6 (b : Z) : Z := Z.land b 0x3F.

(** utf8.DecodeRune: the rune and its width in bytes. *)
Definition DecodeRune (p : list Z) : Z * nat :=
  match p with
  | [] => (RuneError, 0%nat)
  | s0 :: t =>
      if s0 <? RuneSelf then (s0, 1%nat)
      else
        match first s0 with
        | None => (RuneError, 1%nat)
        | Some (sz, lo, hi) =>
            if (length p <? sz)%nat then (RuneError, 1%nat)
            else
              match t with
              | s1 :: t1 =>
                  if negb (between lo s1 hi) then (RuneError, 1%nat)
                  else if (sz <=? 2)%nat then
                    (Z.lor (Z.shiftl (Z.land s0 0x1F) 6) (low6 s1), 2%nat)
                  else
                    match t1 with
                    | s2 :: t2 =>
                        if negb (cont s2) then (RuneError, 1%nat)
                        else if (sz <=? 3)%nat then
                          (Z.lor (Z.lor (Z.shiftl (Z.land s0 0x0F) 12)
                                        (Z.shiftl (low6 s1) 6)) (low6 s2), 3%nat)
                        else
                          match t2 with
                          | s3 :: _ =>
                              if negb (cont s3) then (RuneError, 1%nat)
                              else
                                (Z.lor (Z.lor (Z.lor (Z.shiftl (Z.land s0 0x07) 18)
                                                     (Z.shiftl (low6 s1) 12))
                                              (Z.shiftl (low6 s2) 6)) (low6 s3), 4%nat)
                          | [] => (RuneError, 1%nat)
                          end
                    | [] => (RuneError, 1%nat)
                    end
              | [] => (RuneError, 1%nat)
              end
        end
  end.

Definition encode3 (r : Z) : list Z :=
  [Z.lor 0xE0 (Z.shiftr r 12); Z.lor 0x80 (low6 (Z.shiftr r 6)); Z.lor 0x80 (low6 r)].

(** utf8.EncodeRune *)
Definition EncodeRune (r : Z) : list Z :=
  if r <? 0 then encode3 RuneError
  else if r <=? 0x7F then [r]
  else if r <=? 0x7FF then [Z.lor 0xC0 (Z.shiftr r 6); Z.lor 0x80 (low6 r)]
  else if (MaxRune <? r) || between 0xD800 r 0xDFFF then encode3 RuneError
  else if r <=? 0xFFFF then encode3 r
  else [Z.lor 0xF0 (Z.shiftr r 18); Z.lor 0x80 (low6 (Z.shiftr r 12));
        Z.lor 0x80 (low6 (Z.shiftr r 6)); Z.lor 0x80 (low6 r)].

End utf8.

(** The digit tables [lowerhex] of strconv and [hex] of encoding/json. *)
Definition hexdigit (n : Z) : Z :=
  let d := Z.land n 0xF in
  if d <? 10 then 48 + d else 87 + d.

(** Package strconv. *)
Module strconv.

(** strconv.IsPrint.  Up to U+00FF it is the range test of the source;
    above, the source searches the Unicode tables, here [isPrint]. *)
Definition IsPrint (isPrint : Z -> bool) (r : Z) : bool :=
  if r <=? 0xFF then
    if between 0x20 r 0x7E then true
    else if between 0xA1 r 0xFF then negb (r =? 0xAD)
    else false
  else isPrint r.

Definition hex_digits (r : Z) (shifts : list Z) : list Z :=
  map (fun s => hexdigit (Z.shiftr r s)) shifts.

(** appendEscapedRune with quote = the double quote, ASCIIonly and
    graphicOnly false. *)
Definition appendEscapedRune (isPrint : Z -> bool) (r : Z) : list Z :=
  if (r =? 34) || (r =? 92) then [92; r]
  else if IsPrint isPrint r then utf8.EncodeRune r
  else if r =? 7 then [92; 97]        (* \a *)
  else if r =? 8 then [92; 98]        (* \b *)
  else if r =? 12 then [92; 102]      (* \f *)
  else if r =? 10 then [92; 110]      (* \n *)
  else if r =? 13 then [92; 114]      (* \r *)
  else if r =? 9 then [92; 116]       (* \t *)
  else if r =? 11 then [92; 118]      (* \v *)
  else if r <? 32 then 92 :: 120 :: hex_digits r [4; 0]
  else if utf8.MaxRune <? r then 92 :: 117 :: hex_digits utf8.RuneError [12; 8; 4; 0]
  else if r <? 0x10000 then 92 :: 117 :: hex_digits r [12; 8; 4; 0]
  else 92 :: 85 :: hex_digits r [28; 24; 20; 16; 12; 8; 4; 0].

(** The loop of appendQuotedWith; every turn consumes at least one
    byte, so [length s] turns are enough. *)
Fixpoint quote_loop (isPrint : Z -> bool) (turns : nat) (s : list Z) : list Z :=
  match turns, s with
  | S turns, s0 :: _ =>
      let '(r, width) :=
        if utf8.RuneSelf <=? s0 then utf8.DecodeRune s else (s0, 1%nat) in
      let out :=
        if (width =? 1)%nat && (r =? utf8.RuneError)
        then 92 :: 120 :: [hexdigit (Z.shiftr s0 4); hexdigit s0]
        else appendEscapedRune isPrint r in
      (out ++ quote_loop isPrint turns (drop width s))%list
  | _, _ => []
  end.

(** strconv.Quote *)
Definition Quote (isPrint : Z -> bool) (s : string) : string :=
  let b := bytes s in
  str ((34 :: quote_loop isPrint (length b) b) ++ [34])%list.

(** strconv.Itoa *)
Definition Itoa (n : Z) : string := NilEmpty.string_of_int (Z.to_int n).

End strconv.

Module http.

(** http.StatusText: the table [statusText]; the empty text for a code
    that is not in it. *)
Definition StatusText (code : Z) : string :=
  match code with
  | 100 => "Continue"
  | 101 => "Switching Protocols"
  | 102 => "Processing"
  | 103 => "Early Hints"
  | 200 => "OK"
  | 201 => "Created"
  | 202 => "Accepted"
  | 203 => "Non-Authoritative Information"
  | 204 => "No Content"
  | 205 => "Reset Content"
  | 206 => "Partial Content"
  | 207 => "Multi-Status"
  | 208 => "Already Reported"
  | 226 => "IM Used"
  | 300 => "Multiple Choices"
  | 301 => "Moved Permanently"
  | 302 => "Found"
  | 303 => "See Other"
  | 304 => "Not Modified"
  | 305 => "Use Proxy"
  | 307 => "Temporary Redirect"
  | 308 => "Permanent Redirect"
  | 400 => "Bad Request"
  | 401 => "Unauthorized"
  | 402 => "Payment Required"
  | 403 => "Forbidden"
  | 404 => "Not Found"
  | 405 => "Method Not Allowed"
  | 406 => "Not Acceptable"
  | 407 => "Proxy Authentication Required"
  | 408 => "Request Timeout"
  | 409 => "Conflict"
  | 410 => "Gone"
  | 411 => "Length Required"
  | 412 => "Precondition Failed"
  | 413 => "Request Entity Too Large"
  | 414 => "Request URI Too Long"
  | 415 => "Unsupported Media Type"
  | 416 => "Requested Range Not Satisfiable"
  | 417 => "Expectation Failed"
  | 418 => "I'm a teapot"
  | 421 => "Misdirected Request"
  | 422 => "Unprocessable Entity"
  | 423 => "Locked"
  | 424 => "Failed Dependency"
  | 425 => "Too Early"
  | 426 => "Upgrade Required"
  | 428 => "Precondition Required"
  | 429 => "Too Many Requests"
  | 431 => "Request Header Fields Too Large"
  | 451 => "Unavailable For Legal Reasons"
  | 500 => "Internal Server Error"
  | 501 => "Not Implemented"
  | 502 => "Bad Gateway"
  | 503 => "Service Unavailable"
  | 504 => "Gateway Timeout"
  | 505 => "HTTP Version Not Supported"
  | 506 => "Variant Also Negotiates"
  | 507 => "Insufficient Storage"
  | 508 => "Loop Detected"
  | 510 => "Not Extended"
  | 511 => "Network Authentication Required"
  | _ => EmptyString
  end.

(** checkWriteHeaderCode: a status code must have three digits, or
    WriteHeader panics. *)
Definition checkWriteHeaderCode (code : Z) : bool :=
  (code <? 100) || (999 <? code).

(** bodyAllowedForStatus *)
Definition bodyAllowedForStatus (status : Z) : bool :=
  if (100 <=? status) && (status <=? 199) then false
  else if status =? 204 then false
  else if status =? 304 then false
  else true.

(** ErrBodyNotAllowed *)
Definition ErrBodyNotAllowed : error :=
  errorString "http: request method or response status code does not allow body".

(** The fields wroteHeader and status of a server's response, after the
    calls made on a new one: the status is written by the first
    WriteHeader, or as 200 by a Write that comes before any. *)
Fixpoint status (w : http.ResponseWriter) : option Z :=
  match w with
  | [] => None
  | http.Header_Set _ _ :: w => status w
  | http.WriteHeader code :: _ => Some code
  | http.Write _ :: _ => Some 200
  end.

(** The ResponseWriter that a server hands to its handlers (type
    response), on a connection that is neither hijacked nor broken, for a
    response whose Content-Length is not declared.  WriteHeader checks the
    code unless the header was written before; Write refuses a body that
    the status does not allow.  As in Go 1.13, a status 1xx given to
    WriteHeader is the status of the response. *)
Definition response : http.Writer :=
  {| http.panics w c :=
       match c with
       | http.WriteHeader code =>
           match status w with
           | Some _ => false
           | None => checkWriteHeaderCode code
           end
       | _ => false
       end;
     http.Write_error w b :=
       if (String.length b =? 0)%nat then None
       else match status w with
            | Some written =>
                if bodyAllowedForStatus written then None else Some ErrBodyNotAllowed
            | None => None
            end |}.

End http.


(** Package encoding/json: Marshal of a Response, and Unmarshal into one. *)
Module json.

(** *** Encoding *)

(** The table [htmlSafeSet]: the ASCII bytes written as they are. *)
Definition htmlSafeSet (b : Z) : bool :=
  between 0x20 b 0x7F
  && negb ((b =? 34) || (b =? 92) || (b =? 60) || (b =? 62) || (b =? 38)).

(** The loop of the method string of encodeState, with escapeHTML set:
    a backslash escape for the quote, the backslash and the control
    characters, a u00XX escape for the other unsafe bytes, the escape of
    U+FFFD for a byte that is not UTF-8, and escapes for U+2028 and U+2029. *)
Fixpoint string_loop (turns : nat) (s : list Z) : list Z :=
  match turns, s with
  | S turns, b :: t =>
      if b <? utf8.RuneSelf then
        (if htmlSafeSet b then [b]
         else if (b =? 92) || (b =? 34) then [92; b]
         else if b =? 10 then [92; 110]
         else if b =? 13 then [92; 114]
         else if b =? 9 then [92; 116]
         else [92; 117; 48; 48; hexdigit (Z.shiftr b 4); hexdigit b])
        ++ string_loop turns t
      else
        let '(c, size) := utf8.DecodeRune s in
        (if (c =? utf8.RuneError) && (size =? 1)%nat then [92; 117; 102; 102; 102; 100]
         else if (c =? 0x2028) || (c =? 0x2029) then [92; 117; 50; 48; 50; hexdigit c]
         else take size s)
        ++ string_loop turns (drop size s)
  | _, _ => []
  end%list.

Definition encode_string (s : string) : list Z :=
  let b := bytes s in
  ((34 :: string_loop (length b) b) ++ [34])%list.

(** The name of a field as the struct encoder writes it: quoted, with
    the colon. *)
Definition field_name (name : string) : list Z :=
  (34 :: bytes name ++ [34; 58])%list.

(** json.Marshal(Response{...}): the struct encoder, the fields in the
    order of their declaration under the names of their tags. *)
Definition Marshal (r : Response) : string :=
  str (123 :: field_name "message" ++ encode_string (Message r)
       ++ 44 :: field_name "error" ++ encode_string (Error r)
       ++ 44 :: field_name "statusCode" ++ bytes (strconv.Itoa (StatusCode r))
       ++ [125])%list.

(** *** The scanner (scanner.go) *)

Inductive parse : Type := parseObjectKey | parseObjectValue | parseArrayValue.

Inductive state : Type :=
| stateBeginValueOrEmpty | stateBeginValue | stateBeginStringOrEmpty
| stateBeginString | stateEndValue | stateEndTop
| stateInString | stateInStringEsc | stateInStringEscU | stateInStringEscU1
| stateInStringEscU12 | stateInStringEscU123
| stateNeg | state1 | state0 | stateDot | stateDot0 | stateE | stateESign | stateE0
| stateT | stateTr | stateTru | stateF | stateFa | stateFal | stateFals
| stateN | stateNu | stateNul | stateError.

Inductive opcode : Type :=
| scanContinue | scanBeginLiteral | scanBeginObject | scanObjectKey
| scanObjectValue | scanEndObject | scanBeginArray | scanArrayValue
| scanEndArray | scanSkipSpace | scanEnd | scanError.

(** The scanner; [err] is a SyntaxError, its message and offset. *)
Record scanner : Type := {
  step : state;
  endTop : bool;
  parseState : list parse;          (* the stack, its top first *)
  err : option (string * Z);
  nbytes : Z                        (* the field bytes *)
}.

Definition set_step (s : scanner) (st : state) : scanner :=
  {| step := st; endTop := endTop s; parseState := parseState s;
     err := err s; nbytes := nbytes s |}.

Definition set_parseState (s : scanner) (ps : list parse) : scanner :=
  {| step := step s; endTop := endTop s; parseState := ps;
     err := err s; nbytes := nbytes s |}.

Definition isSpace (c : Z) : bool :=
  (c =? 32) || (c =? 9) || (c =? 13) || (c =? 10).

Definition isDigit (c : Z) : bool := between 48 c 57.

Definition isHex (c : Z) : bool :=
  between 48 c 57 || between 97 c 102 || between 65 c 70.

(** quoteChar formats c as a quoted character literal *)
Definition quoteChar (c : Z) : string :=
  if c =? 39 then "'\''"
  else if c =? 34 then str [39; 34; 39]
  else "'" +:+ str (strconv.appendEscapedRune (fun _ => false) c) +:+ "'".

(** s.error records an error and switches to the error state. *)
Definition s_error (s : scanner) (c : Z) (context : string) : scanner * opcode :=
  ({| step := stateError; endTop := endTop s; parseState := parseState s;
      err := Some ("invalid character " +:+ quoteChar c +:+ " " +:+ context, nbytes s);
      nbytes := nbytes s |}, scanError).

Definition pushParseState (s : scanner) (p : parse) : scanner :=
  set_parseState s (p :: parseState s).

Definition popParseState (s : scanner) : scanner :=
  let ps := tail (parseState s) in
  match ps with
  | [] => {| step := stateEndTop; endTop := true; parseState := ps;
             err := err s; nbytes := nbytes s |}
  | _ => set_step (set_parseState s ps) stateEndValue
  end.

Definition do_stateEndTop (s : scanner) (c : Z) : scanner * opcode :=
  if negb (isSpace c) then (fst (s_error s c "after top-level value"), scanEnd)
  else (s, scanEnd).

Definition do_stateEndValue (s : scanner) (c : Z) : scanner * opcode :=
  match parseState s with
  | [] =>
      do_stateEndTop {| step := stateEndTop; endTop := true; parseState := [];
                        err := err s; nbytes := nbytes s |} c
  | ps :: rest =>
      if isSpace c then (set_step s stateEndValue, scanSkipSpace)
      else
        match ps with
        | parseObjectKey =>
            if c =? 58 then
              (set_step (set_parseState s (parseObjectValue :: rest)) stateBeginValue,
               scanObjectKey)
            else s_error s c "after object key"
        | parseObjectValue =>
            if c =? 44 then
              (set_step (set_parseState s (parseObjectKey :: rest)) stateBeginString,
               scanObjectValue)
            else if c =? 125 then (popParseState s, scanEndObject)
            else s_error s c "after object key:value pair"
        | parseArrayValue =>
            if c =? 44 then (set_step s stateBeginValue, scanArrayValue)
            else if c =? 93 then (popParseState s, scanEndArray)
            else s_error s c "after array element"
        end
  end.

Definition do_stateBeginValue (s : scanner) (c : Z) : scanner * opcode :=
  if isSpace c then (s, scanSkipSpace)
  else if c =? 123 then
    (pushParseState (set_step s stateBeginStringOrEmpty) parseObjectKey, scanBeginObject)
  else if c =? 91 then
    (pushParseState (set_step s stateBeginValueOrEmpty) parseArrayValue, scanBeginArray)
  else if c =? 34 then (set_step s stateInString, scanBeginLiteral)
  else if c =? 45 then (set_step s stateNeg, scanBeginLiteral)
  else if c =? 48 then (set_step s state0, scanBeginLiteral)
  else if c =? 116 then (set_step s stateT, scanBeginLiteral)
  else if c =? 102 then (set_step s stateF, scanBeginLiteral)
  else if c =? 110 then (set_step s stateN, scanBeginLiteral)
  else if between 49 c 57 then (set_step s state1, scanBeginLiteral)
  else s_error s c "looking for beginning of value".

Definition do_stateBeginValueOrEmpty (s : scanner) (c : Z) : scanner * opcode :=
  if isSpace c then (s, scanSkipSpace)
  else if c =? 93 then do_stateEndValue s c
  else do_stateBeginValue s c.

Definition do_stateBeginString (s : scanner) (c : Z) : scanner * opcode :=
  if isSpace c then (s, scanSkipSpace)
  else if c =? 34 then (set_step s stateInString, scanBeginLiteral)
  else s_error s c "looking for beginning of object key string".

Definition do_stateBeginStringOrEmpty (s : scanner) (c : Z) : scanner * opcode :=
  if isSpace c then (s, scanSkipSpace)
  else if c =? 125 then
    do_stateEndValue (set_parseState s (parseObjectValue :: tail (parseState s))) c
  else do_stateBeginString s c.

Definition do_state0 (s : scanner) (c : Z) : scanner * opcode :=
  if c =? 46 then (set_step s stateDot, scanContinue)
  else if (c =? 101) || (c =? 69) then (set_step s stateE, scanContinue)
  else do_stateEndValue s c.

Definition do_stateESign (s : scanner) (c : Z) : scanner * opcode :=
  if isDigit c then (set_step s stateE0, scanContinue)
  else s_error s c "in exponent of numeric literal".

(** One letter of a literal true, false or null. *)
Definition expect (s : scanner) (c want : Z) (next : state) (context : string)
  : scanner * opcode :=
  if c =? want then (set_step s next, scanContinue) else s_error s c context.

Definition hexStep (s : scanner) (c : Z) (next : state) : scanner * opcode :=
  if isHex c then (set_step s next, scanContinue)
  else s_error s c "in \u hexadecimal character escape".

(** The call s.step(s, c). *)
Definition do_step (s : scanner) (c : Z) : scanner * opcode :=
  match step s with
  | stateBeginValueOrEmpty => do_stateBeginValueOrEmpty s c
  | stateBeginValue => do_stateBeginValue s c
  | stateBeginStringOrEmpty => do_stateBeginStringOrEmpty s c
  | stateBeginString => do_stateBeginString s c
  | stateEndValue => do_stateEndValue s c
  | stateEndTop => do_stateEndTop s c
  | stateInString =>
      if c =? 34 then (set_step s stateEndValue, scanContinue)
      else if c =? 92 then (set_step s stateInStringEsc, scanContinue)
      else if c <? 32 then s_error s c "in string literal"
      else (s, scanContinue)
  | stateInStringEsc =>
      if (c =? 98) || (c =? 102) || (c =? 110) || (c =? 114) || (c =? 116)
         || (c =? 92) || (c =? 47) || (c =? 34)
      then (set_step s stateInString, scanContinue)
      else if c =? 117 then (set_step s stateInStringEscU, scanContinue)
      else s_error s c "in string escape code"
  | stateInStringEscU => hexStep s c stateInStringEscU1
  | stateInStringEscU1 => hexStep s c stateInStringEscU12
  | stateInStringEscU12 => hexStep s c stateInStringEscU123
  | stateInStringEscU123 => hexStep s c stateInString
  | stateNeg =>
      if c =? 48 then (set_step s state0, scanContinue)
      else if between 49 c 57 then (set_step s state1, scanContinue)
      else s_error s c "in numeric literal"
  | state1 =>
      if isDigit c then (set_step s state1, scanContinue) else do_state0 s c
  | state0 => do_state0 s c
  | stateDot =>
      if isDigit c then (set_step s stateDot0, scanContinue)
      else s_error s c "after decimal point in numeric literal"
  | stateDot0 =>
      if isDigit c then (s, scanContinue)
      else if (c =? 101) || (c =? 69) then (set_step s stateE, scanContinue)
      else do_stateEndValue s c
  | stateE =>
      if (c =? 43) || (c =? 45) then (set_step s stateESign, scanContinue)
      else do_stateESign s c
  | stateESign => do_stateESign s c
  | stateE0 =>
      if isDigit c then (s, scanContinue) else do_stateEndValue s c
  | stateT => expect s c 114 stateTr "in literal true (expecting 'r')"
  | stateTr => expect s c 117 stateTru "in literal true (expecting 'u')"
  | stateTru => expect s c 101 stateEndValue "in literal true (expecting 'e')"
  | stateF => expect s c 97 stateFa "in literal false (expecting 'a')"
  | stateFa => expect s c 108 stateFal "in literal false (expecting 'l')"
  | stateFal => expect s c 115 stateFals "in literal false (expecting 's')"
  | stateFals => expect s c 101 stateEndValue "in literal false (expecting 'e')"
  | stateN => expect s c 117 stateNu "in literal null (expecting 'u')"
  | stateNu => expect s c 108 stateNul "in literal null (expecting 'l')"
  | stateNul => expect s c 108 stateEndValue "in literal null (expecting 'l')"
  | stateError => (s, scanError)
  end.

(** scan.reset() on a fresh scanner *)
Definition reset : scanner :=
  {| step := stateBeginValue; endTop := false; parseState := [];
     err := None; nbytes := 0 |}.

Definition count (s : scanner) : scanner :=
  {| step := step s; endTop := endTop s; parseState := parseState s;
     err := err s; nbytes := nbytes s + 1 |}.

(** s.eof(): the error left at the end of the input, if any. *)
Definition eof (s : scanner) : option (string * Z) :=
  match err s with
  | Some e => Some e
  | None =>
      if endTop s then None
      else
        let s' := fst (do_step s 32) in
        if endTop s' then None
        else match err s' with
             | Some e => Some e
             | None => Some ("unexpected end of JSON input", nbytes s')
             end
  end.

(** checkValid(data, scan) *)
Fixpoint checkValid (data : list Z) (scan : scanner) : option (string * Z) :=
  match data with
  | [] => eof scan
  | c :: data =>
      let '(scan, op) := do_step (count scan) c in
      match op with
      | scanError => err scan
      | _ => checkValid data scan
      end
  end.

(** *** Decoding (decode.go) *)

(** A JSON value; a string is held unquoted, a number as its literal. *)
#[local] Unset Elimination Schemes.
Inductive jvalue : Type :=
| JNull
| JBool (b : bool)
| JNumber (lit : list Z)
| JString (s : list Z)
| JArray (elems : list jvalue)
| JObject (members : list (list Z * jvalue)).
#[local] Set Elimination Schemes.

Definition hexval (c : Z) : Z :=
  if isDigit c then c - 48 else if between 97 c 102 then c - 87 else c - 55.

(** getu4 decodes the escape of four hex digits at the beginning of s,
    -1 if there is none. *)
Definition getu4 (s : list Z) : Z :=
  match s with
  | 92 :: 117 :: a :: b :: c :: d :: _ =>
      if isHex a && isHex b && isHex c && isHex d
      then ((hexval a * 16 + hexval b) * 16 + hexval c) * 16 + hexval d
      else -1
  | _ => -1
  end.

(** utf16.IsSurrogate and utf16.DecodeRune *)
Definition IsSurrogate (r : Z) : bool := (0xD800 <=? r) && (r <? 0xE000).

Definition utf16_DecodeRune (r1 r2 : Z) : Z :=
  if (0xD800 <=? r1) && (r1 <? 0xDC00) && (0xDC00 <=? r2) && (r2 <? 0xE000)
  then Z.lor (Z.shiftl (r1 - 0xD800) 10) (r2 - 0xDC00) + 0x10000
  else utf8.RuneError.

(** The loop of unquoteBytes on the bytes between the quotes; every
    turn consumes at least one byte. *)
Fixpoint unquote_loop (turns : nat) (s : list Z) : option (list Z) :=
  match turns, s with
  | _, [] => Some []
  | O, _ :: _ => None
  | S turns, c :: t =>
      if c =? 92 then
        match t with
        | [] => None
        | e :: t' =>
            if (e =? 34) || (e =? 92) || (e =? 47) || (e =? 39)
            then cons e <$> unquote_loop turns t'
            else if e =? 98 then cons 8 <$> unquote_loop turns t'
            else if e =? 102 then cons 12 <$> unquote_loop turns t'
            else if e =? 110 then cons 10 <$> unquote_loop turns t'
            else if e =? 114 then cons 13 <$> unquote_loop turns t'
            else if e =? 116 then cons 9 <$> unquote_loop turns t'
            else if e =? 117 then
              let rr := getu4 s in
              if rr <? 0 then None
              else
                let rest := drop 6 s in
                if IsSurrogate rr then
                  let dec := utf16_DecodeRune rr (getu4 rest) in
                  if negb (dec =? utf8.RuneError)
                  then app (utf8.EncodeRune dec) <$> unquote_loop turns (drop 6 rest)
                  else app (utf8.EncodeRune utf8.RuneError) <$> unquote_loop turns rest
                else app (utf8.EncodeRune rr) <$> unquote_loop turns rest
            else None
        end
      else if (c =? 34) || (c <? 32) then None
      else if c <? utf8.RuneSelf then cons c <$> unquote_loop turns t
      else
        let '(rr, size) := utf8.DecodeRune s in
        app (utf8.EncodeRune rr) <$> unquote_loop turns (drop size s)
  end.

(** unquoteBytes *)
Definition unquoteBytes (item : list Z) : option (list Z) :=
  match item with
  | 34 :: rest =>
      match last rest with
      | Some 34 =>
          let s := take (length rest - 1) rest in
          unquote_loop (length s) s
      | _ => None
      end
  | _ => None
  end.

(** The decoder walks the input with the scanner and reacts to its
    opcodes.  Here the walk first builds the value: [stack] holds the
    objects and arrays that are open, [lit] the literal being read. *)
Inductive frame : Type :=
| FObject (members : list (list Z * jvalue)) (key : option (list Z))
| FArray (elems : list jvalue).

Record builder : Type := {
  stack : list frame;
  lit : option (list Z);
  top : option jvalue;
  sync : bool                       (* false: the walk went wrong *)
}.

Definition lost (b : builder) : builder :=
  {| stack := stack b; lit := lit b; top := top b; sync := false |}.

(** A value is complete: it is a key or a member of the open object,
    an element of the open array, or the top-level value. *)
Definition put (b : builder) (v : jvalue) : builder :=
  match stack b with
  | [] => {| stack := []; lit := None; top := Some v; sync := sync b |}
  | FObject ms None :: rest =>
      match v with
      | JString k =>
          {| stack := FObject ms (Some k) :: rest; lit := None; top := top b;
             sync := sync b |}
      | _ => lost b
      end
  | FObject ms (Some k) :: rest =>
      {| stack := FObject (ms ++ [(k, v)]) None :: rest; lit := None; top := top b;
         sync := sync b |}
  | FArray es :: rest =>
      {| stack := FArray (es ++ [v]) :: rest; lit := None; top := top b;
         sync := sync b |}
  end.

(** The literal read, by its first byte as in literalStore. *)
Definition literal (item : list Z) : option jvalue :=
  match item with
  | [] => None
  | 110 :: _ => Some JNull
  | 116 :: _ => Some (JBool true)
  | 102 :: _ => Some (JBool false)
  | 34 :: _ => JString <$> unquoteBytes item
  | _ => Some (JNumber item)
  end.

Definition flush (b : builder) : builder :=
  match lit b with
  | None => b
  | Some item =>
      match literal item with
      | Some v => put b v
      | None => lost b
      end
  end.

Definition open (b : builder) (f : frame) : builder :=
  {| stack := f :: stack b; lit := None; top := top b; sync := sync b |}.

Definition close (b : builder) : builder :=
  match stack b with
  | FObject ms None :: rest =>
      put {| stack := rest; lit := None; top := top b; sync := sync b |} (JObject ms)
  | FArray es :: rest =>
      put {| stack := rest; lit := None; top := top b; sync := sync b |} (JArray es)
  | _ => lost b
  end.

Definition build_step (b : builder) (c : Z) (op : opcode) : builder :=
  match op with
  | scanBeginLiteral =>
      {| stack := stack b; lit := Some [c]; top := top b; sync := sync b |}
  | scanContinue =>
      match lit b with
      | Some item =>
          {| stack := stack b; lit := Some (item ++ [c]); top := top b; sync := sync b |}
      | None => lost b
      end
  | scanBeginObject => open (flush b) (FObject [] None)
  | scanBeginArray => open (flush b) (FArray [])
  | scanEndObject | scanEndArray => close (flush b)
  | scanError => lost b
  | _ => flush b
  end.

Fixpoint build (data : list Z) (scan : scanner) (b : builder) : builder :=
  match data with
  | [] => flush b
  | c :: data =>
      let '(scan, op) := do_step scan c in
      build data scan (build_step b c op)
  end.

Definition parse_value (data : list Z) : option jvalue :=
  let b := build data reset {| stack := []; lit := None; top := None; sync := true |} in
  if sync b then
    match stack b with
    | [] => top b
    | _ => None
    end
  else None.

(** The fold functions of fold.go. *)
Definition caseMask (b : Z) : Z := Z.land b 0xDF.

Definition kelvin : Z := 0x212A.
Definition smallLongEss : Z := 0x17F.

Fixpoint equalFoldRight (s t : list Z) : bool :=
  match s with
  | [] => match t with [] => true | _ => false end
  | sb :: s' =>
      match t with
      | [] => false
      | tb :: t' =>
          if tb <? utf8.RuneSelf then
            if sb =? tb then equalFoldRight s' t'
            else
              let sbUpper := caseMask sb in
              if between 65 sbUpper 90 && (sbUpper =? caseMask tb)
              then equalFoldRight s' t'
              else false
          else
            let '(tr, size) := utf8.DecodeRune t in
            if ((sb =? 115) || (sb =? 83)) && (tr =? smallLongEss)
            then equalFoldRight s' (drop size t)
            else if ((sb =? 107) || (sb =? 75)) && (tr =? kelvin)
            then equalFoldRight s' (drop size t)
            else false
      end
  end.

Fixpoint simpleLetterEqualFold (s t : list Z) : bool :=
  match s, t with
  | [], [] => true
  | b :: s', tb :: t' => (caseMask b =? caseMask tb) && simpleLetterEqualFold s' t'
  | _, _ => false
  end.

(** The fields of Response, in the order of the struct. *)
Inductive field : Type := fMessage | fError | fStatusCode.

Definition name (f : field) : string :=
  match f with
  | fMessage => "message"
  | fError => "error"
  | fStatusCode => "statusCode"
  end.

(** foldFunc: equalFoldRight for a name with a k or an s,
    simpleLetterEqualFold for one of other letters only. *)
Definition equalFold (f : field) : list Z -> list Z -> bool :=
  match f with
  | fMessage | fStatusCode => equalFoldRight
  | fError => simpleLetterEqualFold
  end.

Definition bytes_eqb (a b : list Z) : bool :=
  bool_decide (a = b).

(** The search of object() for the field of a key: the field of that
    very name, else the first one equal to it under folding. *)
Definition find_field (key : list Z) : option field :=
  let fields := [fMessage; fError; fStatusCode] in
  match find (fun ff => bytes_eqb (bytes (name ff)) key) fields with
  | Some f => Some f
  | None => find (fun ff => equalFold ff (bytes (name ff)) key) fields
  end.

(** The Value of an UnmarshalTypeError. *)
Definition kind (v : jvalue) : string :=
  match v with
  | JNull => "null"
  | JBool _ => "bool"
  | JNumber _ => "number"
  | JString _ => "string"
  | JArray _ => "array"
  | JObject _ => "object"
  end.

(** The text of an UnmarshalTypeError, in and out of a struct field. *)
Definition typeError (val : string) (f : option field) (type : string) : error :=
  errorString
    ("json: cannot unmarshal " +:+ val +:+
     match f with
     | Some f => " into Go struct field Response." +:+ name f
     | None => " into Go value"
     end +:+ " of type " +:+ type).

(** strconv.ParseInt(s, 10, 64) on a JSON number. *)
Definition digits_value (ds : list Z) : Z :=
  fold_left (fun acc d => acc * 10 + (d - 48)) ds 0.

Definition ParseInt (s : list Z) : option Z :=
  let '(neg, ds) := match s with
                    | 45 :: ds => (true, ds)
                    | _ => (false, s)
                    end in
  match ds with
  | [] => None
  | _ =>
      if forallb isDigit ds then
        let n := if neg then - digits_value ds else digits_value ds in
        if (- 2 ^ 63 <=? n) && (n <=? 2 ^ 63 - 1) then Some n else None
      else None
  end.

(** d.saveError keeps the first error. *)
Definition saveError (saved : option error) (e : error) : option error :=
  match saved with
  | Some _ => saved
  | None => Some e
  end.

(** One member of the object, stored into its field: null leaves the
    field, a value of the wrong kind is an error and leaves it too. *)
Definition member (acc : Response * option error) (kv : list Z * jvalue)
  : Response * option error :=
  let '(r, saved) := acc in
  let '(key, v) := kv in
  match find_field key with
  | None => acc
  | Some fStatusCode =>
      match v with
      | JNull => acc
      | JNumber item =>
          match ParseInt item with
          | Some n =>
              ({| Message := Message r; Error := Error r; StatusCode := n |}, saved)
          | None =>
              (r, saveError saved
                    (typeError ("number " +:+ str item) (Some fStatusCode) "int"))
          end
      | _ => (r, saveError saved (typeError (kind v) (Some fStatusCode) "int"))
      end
  | Some f =>
      match v with
      | JNull => acc
      | JString s =>
          (match f with
           | fMessage =>
               {| Message := str s; Error := Error r; StatusCode := StatusCode r |}
           | _ => {| Message := Message r; Error := str s; StatusCode := StatusCode r |}
           end, saved)
      | _ => (r, saveError saved (typeError (kind v) (Some f) "string"))
      end
  end.

(** json.Unmarshal(data, &v) for v a Response *)
Definition Unmarshal (data : string) (v : Response) : Response * option error :=
  let b := bytes data in
  match checkValid b reset with
  | Some (msg, _) => (v, Some (errorString msg))
  | None =>
      match parse_value b with
      | Some (JObject members) => fold_left member members (v, None)
      | Some JNull => (v, None)
      | Some j => (v, Some (typeError (kind j) None "httperr.Response"))
      | None =>
          (* phasePanicMsg: not reached on input that checkValid accepts *)
          (v, Some (errorString "JSON decoder out of sync - data changing underfoot?"))
      end
  end.

End json.

(** Package mime: ParseMediaType, its media type and its error. *)
Module mime.

(** unicode.IsSpace *)
Definition IsSpace (r : Z) : bool :=
  between 9 r 13 || (r =? 0x20) || (r =? 0x85) || (r =? 0xA0) || (r =? 0x1680)
  || between 0x2000 r 0x200A || (r =? 0x2028) || (r =? 0x2029) || (r =? 0x202F)
  || (r =? 0x205F) || (r =? 0x3000).

(** unicode.ToLower.  Outside ASCII only the two runes whose lower
    case is an ASCII letter are mapped; any other rune stands for its
    lower case, which is outside ASCII and a space only if the rune is
    one: ParseMediaType rejects both alike. *)
Definition ToLower (r : Z) : Z :=
  if between 65 r 90 then r + 32
  else if r =? 0x130 then 105
  else if r =? 0x212A then 107
  else r.

(** The runes of a string with their bytes, as a range loop reads them. *)
Fixpoint runes (turns : nat) (s : list Z) : list (Z * list Z) :=
  match turns, s with
  | S turns, _ :: _ =>
      let '(r, size) := utf8.DecodeRune s in
      (r, take size s) :: runes turns (drop size s)
  | _, _ => []
  end.

Fixpoint dropSpace (rs : list (Z * list Z)) : list (Z * list Z) :=
  match rs with
  | (r, _) :: rs' => if IsSpace r then dropSpace rs' else rs
  | [] => []
  end.

Definition trim (rs : list (Z * list Z)) : list (Z * list Z) :=
  reverse (dropSpace (reverse (dropSpace rs))).

(** strings.TrimSpace *)
Definition TrimSpace (s : list Z) : list Z :=
  flat_map snd (trim (runes (length s) s)).

(** strings.TrimSpace(strings.ToLower(s)); ToLower writes the encoding
    of every mapped rune. *)
Definition lower_trimmed (s : list Z) : list Z :=
  flat_map (fun rb => utf8.EncodeRune (fst rb))
           (trim (map (fun rb => (ToLower (fst rb), snd rb)) (runes (length s) s))).

(** strings.TrimLeftFunc(v, unicode.IsSpace) *)
Fixpoint TrimLeft (turns : nat) (v : list Z) : list Z :=
  match turns, v with
  | S turns, _ :: _ =>
      let '(r, size) := utf8.DecodeRune v in
      if IsSpace r then TrimLeft turns (drop size v) else v
  | _, _ => v
  end.

Definition trimLeft (v : list Z) : list Z := TrimLeft (length v) v.

(** isTSpecial: one of ()<>@,;:\ the double quote and /[]?= *)
Definition isTSpecial (r : Z) : bool :=
  existsb (Z.eqb r) [40; 41; 60; 62; 64; 44; 59; 58; 92; 34; 47; 91; 93; 63; 61].

Definition isTokenChar (r : Z) : bool :=
  (0x20 <? r) && (r <? 0x7F) && negb (isTSpecial r).

(** consumeToken: the longest prefix of token characters and the rest. *)
Fixpoint consumeToken (v : list Z) : list Z * list Z :=
  match v with
  | c :: v' =>
      if isTokenChar c then let '(tok, rest) := consumeToken v' in (c :: tok, rest)
      else ([], v)
  | [] => ([], [])
  end.

Definition checkMediaTypeDisposition (s : list Z) : option string :=
  let '(typ, rest) := consumeToken s in
  match typ, rest with
  | [], _ => Some "mime: no media type"
  | _, [] => None
  | _, 47 :: rest =>
      let '(subtype, rest) := consumeToken rest in
      match subtype, rest with
      | [], _ => Some "mime: expected token after slash"
      | _, [] => None
      | _, _ => Some "mime: unexpected content after media subtype"
      end
  | _, _ => Some "mime: expected slash after first token"
  end.

(** The loop of consumeValue on a quoted string, after the opening
    quote: the rest behind the closing quote, if there is one. *)
Fixpoint quoted (v : list Z) (skip : bool) : option (list Z) :=
  match v with
  | [] => None
  | r :: v' =>
      if skip then quoted v' false
      else if r =? 34 then Some v'
      else if (r =? 92) && match v' with
                           | n :: _ => isTSpecial n
                           | [] => false
                           end
      then quoted v' true
      else if (r =? 13) || (r =? 10) then None
      else quoted v' false
  end.

(** consumeValue, as consumeMediaParam uses it: the rest behind the
    value, [None] when no value can be taken. *)
Definition consumeValue (v : list Z) : option (list Z) :=
  match v with
  | [] => None
  | 34 :: v' => quoted v' false
  | _ =>
      let '(tok, rest) := consumeToken v in
      match tok with
      | [] => None
      | _ => Some rest
      end
  end.

Definition lower_ascii (s : list Z) : list Z :=
  map (fun c => if between 65 c 90 then c + 32 else c) s.

(** consumeMediaParam: the name of the parameter and the rest, [None]
    where the source returns an empty name. *)
Definition consumeMediaParam (v : list Z) : option (list Z * list Z) :=
  match trimLeft v with
  | 59 :: rest =>
      let '(param, rest) := consumeToken (trimLeft rest) in
      match param with
      | [] => None
      | _ =>
          match trimLeft rest with
          | 61 :: rest =>
              match consumeValue (trimLeft rest) with
              | Some rest => Some (lower_ascii param, rest)
              | None => None
              end
          | _ => None
          end
      end
  | _ => None
  end.

(** The loop over the parameters: [None] when it ends well, else the
    error and whether the media type is returned with it. *)
Fixpoint params (turns : nat) (v : list Z) (seen : list (list Z))
  : option (string * bool) :=
  match turns with
  | O => None
  | S turns =>
      match trimLeft v with
      | [] => None
      | v =>
          match consumeMediaParam v with
          | None =>
              if bool_decide (TrimSpace v = [59]) then None
              else Some ("mime: invalid media parameter", true)
          | Some (key, rest) =>
              if bool_decide (key ∈ seen)
              then Some ("mime: duplicate parameter name", false)
              else params turns rest (key :: seen)
          end
      end
  end.

Fixpoint cut (v : list Z) : list Z * list Z :=
  match v with
  | [] => ([], [])
  | c :: v' =>
      if c =? 59 then ([], v)
      else let '(base, rest) := cut v' in (c :: base, rest)
  end.

(** mime.ParseMediaType *)
Definition ParseMediaType (v : string) : string * option error :=
  let '(base, rest) := cut (bytes v) in
  let mediatype := lower_trimmed base in
  match checkMediaTypeDisposition mediatype with
  | Some e => (EmptyString, Some (errorString e))
  | None =>
      match params (S (length rest)) rest [] with
      | None => (str mediatype, None)
      | Some (e, true) => (str mediatype, Some (errorString e))
      | Some (e, false) => (EmptyString, Some (errorString e))
      end
  end.

End mime.

(** The library as a whole.  Two of its parts are not modelled and are
    taken as they come: the Unicode tables behind strconv.IsPrint above
    U+00FF, and fmt.Sprintf on formats of the caller. *)
Definition std (isPrint : Z -> bool) (Sprintf : string -> list value -> string)
  : Library :=
  {| http_StatusText := http.StatusText;
     strconv_Quote := strconv.Quote isPrint;
     fmt_Sprintf := Sprintf;
     mime_ParseMediaType := mime.ParseMediaType;
     json_Marshal := json.Marshal;
     json_Unmarshal := json.Unmarshal |}.

End Go.

(** ** Vocabulary of the properties *)

Open Scope Z_scope.

Definition newline : string := String "010" EmptyString.
Definition dquote : string := String "034" EmptyString.

(** The number of predicates that hold. *)
Fixpoint count_true (l : list bool) : nat :=
  match l with
  | [] => 0%nat
  | b :: l => ((if b then 1 else 0) + count_true l)%nat
  end.

Definition class_predicates (c : Z) : list bool :=
  [IsInformational c; IsSuccess c; IsRedirect c; IsClientError c; IsServerError c].

Definition range_predicates (c : Z) : list bool :=
  (class_predicates c ++ [IsError c])%list.

(** The code stored in an error, when it is a status coder, is a valid
    HTTP status. *)
Definition code_in_range (e : error) : Prop :=
  exists k : Z, StatusCoder e = Some k /\ 100 <= k <= 599.


(** The first calls of RespondJSON on the writer: the header, then the
    status. *)
Definition header_then_status (w : http.ResponseWriter) (status : Z)
  : http.ResponseWriter :=
  (w ++ [http.Header_Set "Content-Type" "application/json"; http.WriteHeader status])%list.

(** An answer: the header is set, the status is written, and what
    json.Marshal made of the value is encoded. *)
Definition respond {W : http.Writer} (status : Z) (marshalled : string + error)
  : action (option error) :=
  w_call (http.Header_Set "Content-Type" "application/json");;
  w_call (http.WriteHeader status);;
  Encode marshalled.

(** None of the calls panics, when they are made one after the other. *)
Fixpoint accepted {W : http.Writer} (w : http.ResponseWriter) (calls : list http.call)
  : bool :=
  match calls with
  | [] => true
  | c :: calls => negb (http.panics w c) && accepted (w ++ [c])%list calls
  end.

(** A library instance for examples: every rune above U+00FF printable,
    Sprintf returning its format. *)
Definition example_std : Library := Go.std (fun _ => true) (fun format _ => format).

(** A byte. *)
Definition is_byte (b : Z) : Prop := 0 <= b <= 255.

(** The number of bytes utf8.EncodeRune writes for a rune. *)
Definition RuneLen (r : Z) : nat :=
  if (r <=? 0x7F)%Z then 1%nat
  else if (r <=? 0x7FF)%Z then 2%nat
  else if (r <=? 0xFFFF)%Z then 3%nat
  else 4%nat.

(** A text of ASCII bytes. *)
Definition ascii_text (s : string) : Prop := Forall (fun b => b < 128) (Go.bytes s).

(** The range of Go's int. *)
Definition is_int (n : Z) : Prop := - 2 ^ 63 <= n <= 2 ^ 63 - 1.

(** The bytes of a decimal number. *)
Fixpoint digits_of (d : Decimal.uint) : list Z :=
  match d with
  | Decimal.Nil => []
  | Decimal.D0 d => 48 :: digits_of d
  | Decimal.D1 d => 49 :: digits_of d
  | Decimal.D2 d => 50 :: digits_of d
  | Decimal.D3 d => 51 :: digits_of d
  | Decimal.D4 d => 52 :: digits_of d
  | Decimal.D5 d => 53 :: digits_of d
  | Decimal.D6 d => 54 :: digits_of d
  | Decimal.D7 d => 55 :: digits_of d
  | Decimal.D8 d => 56 :: digits_of d
  | Decimal.D9 d => 57 :: digits_of d
  end.

(** A scanner without an error. *)
Definition scanning (st : Go.json.state) (top : bool) (ps : list Go.json.parse) (n : Z)
  : Go.json.scanner :=
  {| Go.json.step := st; Go.json.endTop := top; Go.json.parseState := ps;
     Go.json.err := None; Go.json.nbytes := n |}.

(** checkValid accepts the rest of the input from a state of the scanner. *)
Definition valid_from (st : Go.json.state) (top : bool) (ps : list Go.json.parse)
           (data : list Z) : Prop :=
  forall n : Z, Go.json.checkValid data (scanning st top ps n) = None.

(** The inside of a JSON string as the encoder writes it: bytes that stand
    for themselves, two-byte escapes and escapes of four hex digits. *)
Inductive encoded : list Z -> Prop :=
| encoded_nil : encoded []
| encoded_raw (c : Z) (rest : list Z) :
    32 <= c <= 255 -> c <> 34 -> c <> 92 -> encoded rest -> encoded (c :: rest)
| encoded_escape (c : Z) (rest : list Z) :
    c = 34 \/ c = 92 \/ c = 110 \/ c = 114 \/ c = 116 ->
    encoded rest -> encoded (92 :: c :: rest)
| encoded_hex (h1 h2 h3 h4 : Z) (rest : list Z) :
    Go.json.isHex h1 = true -> Go.json.isHex h2 = true ->
    Go.json.isHex h3 = true -> Go.json.isHex h4 = true ->
    encoded rest -> encoded (92 :: 117 :: h1 :: h2 :: h3 :: h4 :: rest).

(** A builder. *)
Definition building (stack : list Go.json.frame) (lit : option (list Z))
           (top : option Go.json.jvalue) : Go.json.builder :=
  {| Go.json.stack := stack; Go.json.lit := lit; Go.json.top := top;
     Go.json.sync := true |}.

(** The literal of a decimal integer without a leading zero. *)
Inductive number : list Z -> Prop :=
| number_zero : number [48]
| number_pos (d1 : Z) (ds : list Z) :
    49 <= d1 <= 57 -> Forall (fun c => 48 <= c <= 57) ds -> number (d1 :: ds)
| number_neg (d1 : Z) (ds : list Z) :
    49 <= d1 <= 57 -> Forall (fun c => 48 <= c <= 57) ds -> number (45 :: d1 :: ds).

(** White space of JSON. *)
Definition space (c : Z) : Prop := c = 32 \/ c = 9 \/ c = 13 \/ c = 10.

(** The bytes json.Marshal writes for a Response around the insides of its
    two strings and its number, followed by what comes after the object. *)
Definition wire (message error statusCode tail : list Z) : list Z :=
  (123 :: Go.json.field_name "message" ++ [34]) ++ message
  ++ (34 :: 44 :: Go.json.field_name "error" ++ [34]) ++ error
  ++ (34 :: 44 :: Go.json.field_name "statusCode") ++ statusCode ++ 125 :: tail.



(** The message that MarshalJSON puts in its payload: the text of the
    cause, the status text without one. *)
Definition message_of {L : Library} (e : httpError) : string :=
  match err e with
  | Some cause => error_Error cause
  | None => http_StatusText (code e)
  end.

(** The UTF-8 encoding of a rune on two, three or four bytes, by the table
    [first] of unicode/utf8. *)
Inductive encoding : list Z -> Z -> Prop :=
| encoding2 (s0 s1 lo hi : Z) :
    Go.utf8.first s0 = Some (2%nat, lo, hi) -> Go.between lo s1 hi = true ->
    encoding [s0; s1] (Z.lor (Z.shiftl (Z.land s0 0x1F) 6) (Go.utf8.low6 s1))
| encoding3 (s0 s1 s2 lo hi : Z) :
    Go.utf8.first s0 = Some (3%nat, lo, hi) -> Go.between lo s1 hi = true ->
    Go.utf8.cont s2 = true ->
    encoding [s0; s1; s2]
             (Z.lor (Z.lor (Z.shiftl (Z.land s0 0x0F) 12)
                           (Z.shiftl (Go.utf8.low6 s1) 6)) (Go.utf8.low6 s2))
| encoding4 (s0 s1 s2 s3 lo hi : Z) :
    Go.utf8.first s0 = Some (4%nat, lo, hi) -> Go.between lo s1 hi = true ->
    Go.utf8.cont s2 = true -> Go.utf8.cont s3 = true ->
    encoding [s0; s1; s2; s3]
             (Z.lor (Z.lor (Z.lor (Z.shiftl (Z.land s0 0x07) 18)
                                  (Z.shiftl (Go.utf8.low6 s1) 12))
                           (Z.shiftl (Go.utf8.low6 s2) 6)) (Go.utf8.low6 s3)).

(** A text that is valid UTF-8: ASCII bytes and encodings of runes. *)
Inductive valid_utf8 : list Z -> Prop :=
| valid_nil : valid_utf8 []
| valid_ascii (b : Z) (rest : list Z) :
    0 <= b < 0x80 -> valid_utf8 rest -> valid_utf8 (b :: rest)
| valid_rune (item : list Z) (r : Z) (rest : list Z) :
    encoding item r -> valid_utf8 rest -> valid_utf8 (item ++ rest)%list.

(** A text read rune by rune and written back, as the conversion
    string([]rune(s)) does: the bytes that are not part of the encoding of
    a rune become U+FFFD each, the others stay. *)
Fixpoint coerce (turns : nat) (s : list Z) : list Z :=
  match turns, s with
  | S turns, b :: t =>
      if b <? Go.utf8.RuneSelf then b :: coerce turns t
      else
        let '(c, size) := Go.utf8.DecodeRune s in
        ((if (c =? Go.utf8.RuneError) && (size =? 1)%nat
          then Go.utf8.EncodeRune Go.utf8.RuneError
          else take size s)
         ++ coerce turns (drop size s))%list
  | _, _ => []
  end.

Definition coerced (s : string) : string :=
  Go.str (coerce (length (Go.bytes s)) (Go.bytes s)).

(** ** Properties that hold over every standard library *)

Section properties.
Context {L : Library} {W : http.Writer}.

(** An answer whose header and status the writer accepts is the encoding
    after these two calls. *)
Lemma respond_accepted (w : http.ResponseWriter) (status : Z)
      (marshalled : string + error) :
  accepted w [http.Header_Set "Content-Type" "application/json";
              http.WriteHeader status] = true ->
  respond status marshalled w = Encode marshalled (header_then_status w status).
Proof.
  unfold accepted, respond, header_then_status, w_call, mbind, action_bind.
  rewrite !andb_true_iff, !negb_true_iff. intros (-> & -> & _).
  now rewrite <- app_assoc.
Qed.

(** The encoding of a text is one Write of the text and a newline. *)
Lemma Encode_text (w : http.ResponseWriter) (text : string) :
  accepted w [http.Write (text +:+ newline)] = true ->
  Encode (inl text) w
  = ((w ++ [http.Write (text +:+ newline)])%list,
     returned (http.Write_error w (text +:+ newline))).
Proof.
  unfold accepted, Encode, w_Write, newline.
  rewrite andb_true_iff, negb_true_iff. now intros [-> _].
Qed.

Lemma accepted_app (w : http.ResponseWriter) (calls more : list http.call) :
  accepted w (calls ++ more)%list
  = accepted w calls && accepted (w ++ calls)%list more.
Proof.
  revert w. induction calls as [|c calls IH]; intros w; cbn [accepted app].
  - now rewrite app_nil_r.
  - rewrite IH, <- app_assoc, andb_assoc. reflexivity.
Qed.

(** An answer with a text that the writer accepts throughout. *)
Lemma respond_text (w : http.ResponseWriter) (status : Z) (text : string) :
  accepted w [http.Header_Set "Content-Type" "application/json";
              http.WriteHeader status; http.Write (text +:+ newline)] = true ->
  respond status (inl text) w
  = ((header_then_status w status ++ [http.Write (text +:+ newline)])%list,
     returned (http.Write_error (header_then_status w status) (text +:+ newline))).
Proof.
  intros H.
  change [http.Header_Set "Content-Type" "application/json"; http.WriteHeader status;
          http.Write (text +:+ newline)]
    with ([http.Header_Set "Content-Type" "application/json"; http.WriteHeader status]
          ++ [http.Write (text +:+ newline)])%list in H.
  rewrite accepted_app in H. apply andb_true_iff in H as [H1 H2].
  rewrite (respond_accepted _ _ _ H1). now apply Encode_text.
Qed.

(** RespondJSON is an answer: with the status 200 and the encoding of the
    value when it is not an error, with the status and the encoding that
    the error decides otherwise. *)
Lemma RespondJSON_respond (w : http.ResponseWriter) :
  (forall json : string + error, RespondJSON w (VOther json) = respond 200 json w) /\
  (forall e : error,
      RespondJSON w (VError e)
      = respond (match StatusCoder e with
                 | Some c => c
                 | None => 500
                 end)
                (match json_Unmarshaler e with
                 | Some u => f_json u
                 | None =>
                     inl (httpError_MarshalJSON
                            (mk_httpError (match StatusCoder e with
                                           | Some c => c
                                           | None => 500
                                           end) (Some e)))
                 end) w).
Proof.
  split.
  - intros json. reflexivity.
  - intros e. unfold RespondJSON, respond. destruct (json_Unmarshaler e); reflexivity.
Qed.


Lemma New_is_httpError (code : Z) (err : option error) :
  New code err = ptr (mk_httpError code err).
Proof. reflexivity. Qed.



(** The text of an HTTP error is the code, a space and the status text;
    with a cause, a colon, a space and the quoted text of the cause
    follow. *)
Lemma Error_text (code : Z) :
  error_Error (New code None) = fmt_d code +:+ " " +:+ http_StatusText code /\
  forall cause : error,
    error_Error (New code (Some cause))
    = fmt_d code +:+ " " +:+ http_StatusText code +:+ ": "
      +:+ strconv_Quote (error_Error cause).
Proof. split; [|intros cause]; reflexivity. Qed.

(** C8.  New keeps the code and the cause as they are given, for any
    integer and any cause, nil included; StatusCode and Unwrap return
    them. *)
Theorem New_stores (code : Z) (cause : option error) :
  exists e : httpError,
    New code cause = ptr e /\
    httpError_StatusCode e = code /\
    httpError_Unwrap e = cause /\
    StatusCoder (New code cause) = Some code.
Proof. exists (mk_httpError code cause). repeat split. Qed.

(** C9, as amended.  The four shortcuts store 400, 500, 404 and 405,
    which are valid status codes.  New and Errorf store the code they are
    given, whatever it is: the stored code is valid exactly when the given
    one is. *)
Theorem constructors_code :
  (forall cause, StatusCoder (BadRequest cause) = Some 400
                 /\ code_in_range (BadRequest cause)) /\
  (forall cause, StatusCoder (InternalServerError cause) = Some 500
                 /\ code_in_range (InternalServerError cause)) /\
  (forall cause, StatusCoder (NotFound cause) = Some 404
                 /\ code_in_range (NotFound cause)) /\
  (forall cause, StatusCoder (MethodNotAllowed cause) = Some 405
                 /\ code_in_range (MethodNotAllowed cause)) /\
  (forall code cause,
      StatusCoder (New code cause) = Some code
      /\ (code_in_range (New code cause) <-> 100 <= code <= 599)) /\
  (forall code format args,
      StatusCoder (Errorf code format args) = Some code
      /\ (code_in_range (Errorf code format args) <-> 100 <= code <= 599)).
Proof.
  assert (Hfixed : forall c cause, 100 <= c <= 599 -> code_in_range (New c cause)).
  { intros c cause Hc. exists c. split; [reflexivity | exact Hc]. }
  assert (Hiff : forall c cause, code_in_range (ptr (mk_httpError c cause))
                                 <-> 100 <= c <= 599).
  { intros c cause. split.
    - intros (k & Hk & Hrange). cbn in Hk. injection Hk as <-. exact Hrange.
    - apply Hfixed. }
  split; [|split; [|split; [|split; [|split]]]].
  - intros cause. split; [reflexivity|]. apply Hfixed. cbv; intuition congruence.
  - intros cause. split; [reflexivity|]. apply Hfixed. cbv; intuition congruence.
  - intros cause. split; [reflexivity|]. apply Hfixed. cbv; intuition congruence.
  - intros cause. split; [reflexivity|]. apply Hfixed. cbv; intuition congruence.
  - intros c cause. split; [reflexivity|]. apply Hiff.
  - intros c format args. split; [reflexivity|]. apply Hiff.
Qed.

(** An HTTP error made by New with a cause is not a json.Unmarshaler, so
    RespondJSON wraps it again: the payload it writes has the whole text
    of the error as its message. *)
Lemma RespondJSON_rewraps (w : http.ResponseWriter) (code : Z) (cause : error) :
  let e := New code (Some cause) in
  json_Unmarshaler e = None /\
  RespondJSON w (VError e)
  = respond code
            (inl (json_Marshal {| Message := error_Error e;
                                  Error := http_StatusText code;
                                  StatusCode := code |})) w /\
  error_Error e
  = fmt_d code +:+ " " +:+ http_StatusText code +:+ ": "
    +:+ strconv_Quote (error_Error cause).
Proof.
  cbn zeta. split; [reflexivity|]. split; reflexivity.
Qed.


End properties.

(** ** The range predicates *)

Ltac range_cases :=
  unfold IsInformational, IsSuccess, IsRedirect, IsClientError, IsServerError, IsError,
    http.StatusContinue, http.StatusOK, http.StatusMultipleChoices,
    http.StatusBadRequest, http.StatusInternalServerError;
  repeat match goal with
         | |- context [(?a <=? ?b)%Z] => destruct (Z.leb_spec a b)
         | |- context [(?a <? ?b)%Z] => destruct (Z.ltb_spec a b)
         end;
  cbn; try reflexivity; try lia; try (split; intros; (discriminate || lia)).

(** C5, as stated: the six predicates do not partition 100..599, because
    IsError holds together with IsClientError or IsServerError; at 404 two
    of the six hold. *)
Lemma six_predicates_overlap :
  ~ (forall c : Z, 100 <= c <= 599 -> count_true (range_predicates c) = 1%nat).
Proof.
  intros H. specialize (H 404 ltac:(lia)). vm_compute in H. discriminate H.
Qed.

(** C5, as amended.  Each of the six predicates holds exactly on its
    half-open range; on 100..599 exactly one of the five class predicates
    holds; IsError is the union of IsClientError and IsServerError. *)
Theorem range_predicates_partition (c : Z) :
  (IsInformational c = true <-> 100 <= c < 200) /\
  (IsSuccess c = true <-> 200 <= c < 300) /\
  (IsRedirect c = true <-> 300 <= c < 400) /\
  (IsClientError c = true <-> 400 <= c < 500) /\
  (IsServerError c = true <-> 500 <= c < 600) /\
  (IsError c = true <-> 400 <= c < 600) /\
  IsError c = IsClientError c || IsServerError c /\
  (100 <= c <= 599 -> count_true (class_predicates c) = 1%nat).
Proof.
  unfold class_predicates, count_true.
  repeat match goal with |- _ /\ _ => split end; range_cases.
Qed.

Lemma range_predicates_partition_witness :
  100 <= 404 <= 599 /\ count_true (class_predicates 404) = 1%nat.
Proof.
  split; [lia|].
  apply (range_predicates_partition 404). lia.
Defined.

(** The partition at its boundaries. *)
Example boundaries :
  map class_predicates [199; 200; 299; 300; 399; 400; 499; 500; 599; 600]
  = [[true; false; false; false; false]; [false; true; false; false; false];
     [false; true; false; false; false]; [false; false; true; false; false];
     [false; false; true; false; false]; [false; false; false; true; false];
     [false; false; false; true; false]; [false; false; false; false; true];
     [false; false; false; false; true]; [false; false; false; false; false]].
Proof. reflexivity. Qed.

(** ** The constructors *)

(** C9, as stated: New does not keep the code in 100..599; New(0, nil)
    stores 0. *)
Lemma New_stores_invalid_code :
  ~ (forall (code : Z) (cause : option error), code_in_range (New code cause)).
Proof.
  intros H. destruct (H 0 None) as [k [Hk Hrange]].
  cbn in Hk. injection Hk as <-. lia.
Qed.

Lemma constructors_code_witness :
  100 <= 404 <= 599 /\
  code_in_range (New 404 None) /\
  code_in_range (Errorf (L := example_std) 404 "not here" []) /\
  code_in_range (BadRequest None) /\
  StatusCoder (Errorf (L := example_std) 0 "not here" []) = Some 0.
Proof.
  assert (H : 100 <= 404 <= 599) by lia.
  split; [exact H|].
  destruct (constructors_code (L := example_std))
    as (Hbad & _ & _ & _ & Hnew & Herrorf).
  split; [apply (Hnew 404 None), H|].
  split; [apply (Herrorf 404 "not here" []), H|].
  split; [apply Hbad | apply (Herrorf 0 "not here" [])].
Defined.

(** ** Properties evaluated on the model of the library *)

Lemma ascii_of_byte_of (c : ascii) : Go.ascii_of (Go.byte_of c) = c.
Proof.
  unfold Go.ascii_of, Go.byte_of. rewrite N2Z.id. apply ascii_N_embedding.
Qed.

Lemma str_bytes (s : string) : Go.str (Go.bytes s) = s.
Proof.
  unfold Go.str, Go.bytes. rewrite map_map.
  rewrite (map_ext _ (fun c => c)) by apply ascii_of_byte_of.
  rewrite map_id. apply string_of_list_ascii_of_string.
Qed.

Lemma str_app (a b : list Z) : Go.str (a ++ b) = Go.str a +:+ Go.str b.
Proof.
  unfold Go.str. induction a as [|c a IH]; cbn; [reflexivity|]. now rewrite IH.
Qed.

Lemma str_cons (c : Z) (l : list Z) : Go.str (c :: l) = String (Go.ascii_of c) (Go.str l).
Proof. reflexivity. Qed.

(** The text of a JSON string and of a field name followed by its colon. *)
Lemma Marshal_shape (r : Response) :
  Go.json.Marshal r
  = "{" +:+ dquote +:+ "message" +:+ dquote +:+ ":"
        +:+ Go.str (Go.json.encode_string (Message r))
    +:+ "," +:+ dquote +:+ "error" +:+ dquote +:+ ":"
        +:+ Go.str (Go.json.encode_string (Error r))
    +:+ "," +:+ dquote +:+ "statusCode" +:+ dquote +:+ ":" +:+ fmt_d (StatusCode r)
    +:+ "}".
Proof.
  unfold Go.json.Marshal, Go.json.field_name, Go.strconv.Itoa, fmt_d.
  repeat (rewrite str_cons || rewrite str_app || rewrite str_bytes).
  reflexivity.
Qed.

Section on_the_model.
Variable isPrint : Z -> bool.
Variable Sprintf : string -> list value -> string.

#[local] Abbreviation std := (Go.std isPrint Sprintf).


(** C4, on the code.  An HTTP error of this package encodes itself
    (MarshalJSON), yet RespondJSON does not encode it directly: it is
    wrapped, and the message written is its whole text, not the message
    of its own encoding.  This is so on every writer; on the writer of a
    server the calls and the result are given. *)
Theorem RespondJSON_wraps_a_marshaler :
  exists e : httpError,
    New 500 (Some (errors_New "boom")) = ptr e /\
    httpError_MarshalJSON (L := std) e
    = Go.json.Marshal {| Message := "boom"; Error := "Internal Server Error";
                         StatusCode := 500 |} /\
    (forall (W : http.Writer) (w : http.ResponseWriter),
        RespondJSON (L := std) w (VError (ptr e))
        = respond 500
            (inl (Go.json.Marshal
                    {| Message := "500 Internal Server Error: "
                                  +:+ dquote +:+ "boom" +:+ dquote;
                       Error := "Internal Server Error"; StatusCode := 500 |})) w) /\
    RespondJSON (L := std) (W := Go.http.response) [] (VError (ptr e))
    = ([http.Header_Set "Content-Type" "application/json"; http.WriteHeader 500;
        http.Write
          (Go.json.Marshal
             {| Message := "500 Internal Server Error: " +:+ dquote +:+ "boom" +:+ dquote;
                Error := "Internal Server Error"; StatusCode := 500 |} +:+ newline)],
       returned None) /\
    RespondJSON (L := std) (W := Go.http.response) [] (VError (ptr e))
    <> respond (W := Go.http.response) 500
         (inl (httpError_MarshalJSON (L := std) e)) [].
Proof.
  eexists. split; [reflexivity|].
  split; [vm_compute; reflexivity|].
  split.
  - intros W w.
    destruct (RespondJSON_rewraps (L := std) w 500 (errors_New "boom")) as (_ & H & _).
    etransitivity; [exact H|].
    replace (error_Error (L := std) (New 500 (Some (errors_New "boom"))))
      with ("500 Internal Server Error: " +:+ dquote +:+ "boom" +:+ dquote)
      by (vm_compute; reflexivity).
    reflexivity.
  - split; [vm_compute; reflexivity|]. vm_compute. discriminate.
Qed.

(** The two texts of the specification. *)
Lemma Error_text_404 :
  error_Error (L := std) (New 404 None) = "404 Not Found" /\
  error_Error (L := std) (New 404 (Some (errors_New "missing")))
  = "404 Not Found: " +:+ dquote +:+ "missing" +:+ dquote.
Proof. split; vm_compute; reflexivity. Qed.

End on_the_model.

(** C7.  The text of an HTTP error is the code, a space and the status
    text when there is no cause; with a cause a colon, a space and the
    quoted text of the cause follow.  New(404, nil) reads 404 Not Found,
    and with the cause errors.New("missing") the quoted word missing
    follows the colon. *)
Theorem Error_description :
  (forall (L : Library) (code : Z),
      error_Error (New code None) = fmt_d code +:+ " " +:+ http_StatusText code /\
      forall cause : error,
        error_Error (New code (Some cause))
        = fmt_d code +:+ " " +:+ http_StatusText code +:+ ": "
          +:+ strconv_Quote (error_Error cause)) /\
  (forall (isPrint : Z -> bool) (Sprintf : string -> list value -> string),
      error_Error (L := Go.std isPrint Sprintf) (New 404 None) = "404 Not Found" /\
      error_Error (L := Go.std isPrint Sprintf) (New 404 (Some (errors_New "missing")))
      = "404 Not Found: " +:+ dquote +:+ "missing" +:+ dquote).
Proof.
  split.
  - intros L code. apply Error_text.
  - apply Error_text_404.
Qed.

(** ** strconv.Quote never shortens a text *)

Lemma bytes_are_bytes (s : string) : Forall is_byte (Go.bytes s).
Proof.
  unfold Go.bytes. apply Forall_map, Forall_forall. intros c _.
  unfold is_byte, Go.byte_of. pose proof (N_ascii_bounded c). lia.
Qed.



Lemma length_append (s1 s2 : string) :
  String.length (s1 +:+ s2) = (String.length s1 + String.length s2)%nat.
Proof.
  induction s1 as [|c s1 IH]; [reflexivity|].
  change (S (String.length (s1 +:+ s2)) = S (String.length s1 + String.length s2)).
  now rewrite IH.
Qed.

Lemma lor_bounds (a b : Z) :
  0 <= a -> 0 <= b -> a <= Z.lor a b /\ b <= Z.lor a b /\ Z.lor a b <= a + b.
Proof.
  intros Ha Hb.
  pose proof (Z.add_lor_land a b) as Hsum.
  pose proof (Z.sub_lor_l_same_r a b) as Hr.
  pose proof (Z.sub_lor_l_same_l b a) as Hl.
  assert (0 <= Z.land a b) by (apply Z.land_nonneg; now left).
  assert (0 <= Z.land a (Z.lnot b)) by (apply Z.land_nonneg; now left).
  assert (0 <= Z.land b (Z.lnot a)) by (apply Z.land_nonneg; now left).
  lia.
Qed.

Ltac split_comparisons :=
  repeat match goal with
         | |- context [(?a <=? ?b)%Z] => destruct (Z.leb_spec a b)
         | |- context [(?a <? ?b)%Z] => destruct (Z.ltb_spec a b)
         | |- context [(?a =? ?b)%Z] => destruct (Z.eqb_spec a b)
         end.



Ltac mlia := Z.to_euclidean_division_equations; lia.

Ltac bits_to_arith :=
  unfold Go.utf8.low6;
  change 0x1F with (Z.ones 5); change 0x0F with (Z.ones 4);
  change 0x07 with (Z.ones 3); change 0x3F with (Z.ones 6);
  rewrite !Z.land_ones by lia; rewrite !Z.shiftl_mul_pow2 by lia;
  change (2 ^ 3) with 8; change (2 ^ 4) with 16; change (2 ^ 5) with 32;
  change (2 ^ 6) with 64; change (2 ^ 12) with 4096; change (2 ^ 18) with 262144.

Lemma rune2_bounds (s0 s1 : Z) :
  0xC2 <= s0 <= 0xDF -> is_byte s1 ->
  0x80 <= Z.lor (Z.shiftl (Z.land s0 0x1F) 6) (Go.utf8.low6 s1) <= 0x7FF.
Proof.
  unfold is_byte. intros H0 H1. bits_to_arith.
  pose proof (lor_bounds (s0 mod 32 * 64) (s1 mod 64) ltac:(mlia) ltac:(mlia)).
  mlia.
Qed.

Lemma rune3_bounds (s0 s1 s2 : Z) :
  0xE0 <= s0 <= 0xEF -> is_byte s1 -> is_byte s2 ->
  (s0 = 0xE0 -> 0xA0 <= s1 <= 0xBF) ->
  0x800 <= Z.lor (Z.lor (Z.shiftl (Z.land s0 0x0F) 12)
                        (Z.shiftl (Go.utf8.low6 s1) 6)) (Go.utf8.low6 s2) <= 0xFFFF.
Proof.
  unfold is_byte. intros H0 H1 H2 HE0. bits_to_arith.
  pose proof (lor_bounds (s0 mod 16 * 4096) (s1 mod 64 * 64) ltac:(mlia) ltac:(mlia)).
  pose proof (lor_bounds (Z.lor (s0 mod 16 * 4096) (s1 mod 64 * 64)) (s2 mod 64)
                ltac:(mlia) ltac:(mlia)).
  mlia.
Qed.

Lemma rune4_bounds (s0 s1 s2 s3 : Z) :
  0xF0 <= s0 <= 0xF4 -> 0x80 <= s1 <= 0xBF -> is_byte s2 -> is_byte s3 ->
  (s0 = 0xF0 -> 0x90 <= s1) -> (s0 = 0xF4 -> s1 <= 0x8F) ->
  0x10000 <= Z.lor (Z.lor (Z.lor (Z.shiftl (Z.land s0 0x07) 18)
                                 (Z.shiftl (Go.utf8.low6 s1) 12))
                          (Z.shiftl (Go.utf8.low6 s2) 6)) (Go.utf8.low6 s3)
  <= Go.utf8.MaxRune.
Proof.
  unfold is_byte, Go.utf8.MaxRune. intros H0 H1 H2 H3 HF0 HF4. bits_to_arith.
  pose proof (lor_bounds (s0 mod 8 * 262144) (s1 mod 64 * 4096) ltac:(mlia) ltac:(mlia)).
  pose proof (lor_bounds (Z.lor (s0 mod 8 * 262144) (s1 mod 64 * 4096)) (s2 mod 64 * 64)
                ltac:(mlia) ltac:(mlia)).
  pose proof (lor_bounds (Z.lor (Z.lor (s0 mod 8 * 262144) (s1 mod 64 * 4096))
                                (s2 mod 64 * 64)) (s3 mod 64) ltac:(mlia) ltac:(mlia)).
  mlia.
Qed.

Lemma RuneLen_bounds (r : Z) :
  (0x80 <= r <= 0x7FF -> RuneLen r = 2%nat) /\
  (0x800 <= r <= 0xFFFF -> RuneLen r = 3%nat) /\
  (0x10000 <= r -> RuneLen r = 4%nat).
Proof. unfold RuneLen. repeat split; intros; split_comparisons; lia. Qed.

Ltac bool_to_arith :=
  unfold Go.utf8.cont, Go.between, Go.utf8.RuneSelf in *;
  repeat match goal with
         | H : negb _ = false |- _ => apply negb_false_iff in H
         | H : negb _ = true |- _ => apply negb_true_iff in H
         | H : (_ && _)%bool = true |- _ => apply andb_true_iff in H; destruct H
         | H : (_ <=? _)%Z = true |- _ => apply Z.leb_le in H
         | H : (_ <? _)%Z = false |- _ => apply Z.ltb_ge in H
         | H : (_ =? _)%Z = true |- _ => apply Z.eqb_eq in H
         | H : (_ =? _)%Z = false |- _ => apply Z.eqb_neq in H
         | H : (_ <? _)%nat = false |- _ => apply Nat.ltb_ge in H
         end.

(** What utf8.DecodeRune returns: the error rune on at most one byte, or a
    rune on exactly the bytes of its encoding. *)
Lemma DecodeRune_width (p : list Z) (r : Z) (w : nat) :
  Forall is_byte p ->
  Go.utf8.DecodeRune p = (r, w) ->
  (w <= length p)%nat /\
  ((r = Go.utf8.RuneError /\ (w <= 1)%nat /\ (p <> [] -> w = 1%nat)) \/
   (0 <= r <= Go.utf8.MaxRune /\ w = RuneLen r)).
Proof.
  intros Hp. unfold Go.utf8.DecodeRune.
  destruct p as [|s0 t].
  { intros [= <- <-]. cbn. split; [lia|]. left. repeat split; [lia|congruence]. }
  apply Forall_cons in Hp as [H0 Hp]. unfold is_byte in H0.
  destruct (s0 <? Go.utf8.RuneSelf) eqn:Hascii.
  { intros [= <- <-]. apply Z.ltb_lt in Hascii.
    unfold Go.utf8.RuneSelf, Go.utf8.MaxRune, RuneLen in *. cbn [length].
    split; [lia|]. right. split; [lia|]. split_comparisons; lia. }
  assert (Herr : forall q : list Z,
             (1 <= length (s0 :: q))%nat /\
             ((Go.utf8.RuneError = Go.utf8.RuneError /\ (1 <= 1)%nat
               /\ (s0 :: q <> [] -> 1%nat = 1%nat)) \/
              (0 <= Go.utf8.RuneError <= Go.utf8.MaxRune
               /\ 1%nat = RuneLen Go.utf8.RuneError))).
  { intros q. cbn [length]. split; [lia|]. left. repeat split; lia. }
  unfold Go.utf8.first.
  repeat match goal with
         | |- context [if ?c then _ else _] =>
             lazymatch c with
             | context [if _ then _ else _] => fail
             | _ => destruct c eqn:?
             end
         | |- context [match ?l with [] => _ | _ :: _ => _ end] =>
             is_var l; destruct l
         | H : Forall is_byte (_ :: _) |- _ => apply Forall_cons in H as [? ?]
         end;
    try (intros [= <- <-]; apply Herr);
    intros [= <- <-]; bool_to_arith; cbn [length] in *;
    (split; [unfold RuneLen; split_comparisons; lia|]); right.
  all: try (exfalso;
            match goal with
            | H : (_ <=? _)%nat = _ |- _ => vm_compute in H; discriminate H
            end).
  all: match goal with
       | |- _ <= Z.lor (Z.shiftl (Z.land ?a 31) 6) (Go.utf8.low6 ?b) <= _ /\ _ =>
           pose proof (rune2_bounds a b ltac:(lia) ltac:(assumption)) as Hb
       | |- _ <= Z.lor (Z.lor (Z.shiftl (Z.land ?a 15) 12) (Z.shiftl (Go.utf8.low6 ?b) 6))
                       (Go.utf8.low6 ?c) <= _ /\ _ =>
           pose proof (rune3_bounds a b c ltac:(lia) ltac:(assumption) ltac:(assumption)
                         ltac:(lia)) as Hb
       | |- _ <= Z.lor (Z.lor (Z.lor (Z.shiftl (Z.land ?a 7) 18)
                                     (Z.shiftl (Go.utf8.low6 ?b) 12))
                              (Z.shiftl (Go.utf8.low6 ?c) 6)) (Go.utf8.low6 ?d) <= _ /\ _ =>
           pose proof (rune4_bounds a b c d ltac:(lia) ltac:(lia) ltac:(assumption)
                         ltac:(assumption) ltac:(lia) ltac:(lia)) as Hb
       end;
    (split; [unfold Go.utf8.MaxRune in *; lia | symmetry; apply RuneLen_bounds; lia]).
Qed.

Lemma RuneLen_pos (r : Z) : (1 <= RuneLen r)%nat.
Proof. unfold RuneLen. split_comparisons; lia. Qed.





(** ** The general properties at concrete inputs *)




(** ** Further properties of the package *)

Section further_properties.
Context {L : Library} {W : http.Writer}.


(** X2.  Whatever the value and the writer, RespondJSON only adds calls
    to the writer, in a fixed order, each one only when the one before has
    returned: it sets the Content-Type header, then writes one status,
    then, unless marshalling failed, makes one Write of a text that ends
    with a newline.  It returns the error of marshalling when there is
    one, and otherwise what the Write returned. *)
Theorem RespondJSON_call_order (w : http.ResponseWriter) (x : value) :
  exists (status : Z) (marshalled : string + error),
    let set := http.Header_Set "Content-Type" "application/json" in
    let w1 := (w ++ [set])%list in
    let w2 := header_then_status w status in
    if http.panics w set then RespondJSON w x = (w1, panicked)
    else if http.panics w1 (http.WriteHeader status) then
           RespondJSON w x = (w2, panicked)
         else
           match marshalled with
           | inr failure => RespondJSON w x = (w2, returned (Some failure))
           | inl text =>
               RespondJSON w x
               = ((w2 ++ [http.Write (text +:+ newline)])%list,
                  if http.panics w2 (http.Write (text +:+ newline)) then panicked
                  else returned (http.Write_error w2 (text +:+ newline)))
           end.
Proof.
  assert (Hrespond : exists status marshalled,
             RespondJSON w x = respond status marshalled w).
  { destruct (RespondJSON_respond w) as [Hother Herror].
    destruct x as [e | json]; eexists _, _; [apply Herror | apply Hother]. }
  destruct Hrespond as (status & marshalled & ->).
  exists status, marshalled. cbn zeta.
  unfold respond, header_then_status, Encode, w_call, w_Write, mbind, action_bind,
    mret, action_ret, newline.
  destruct (http.panics w _); [reflexivity|].
  destruct (http.panics _ (http.WriteHeader status));
    rewrite <- !app_assoc; cbn [app]; [reflexivity|].
  destruct marshalled as [text | failure]; rewrite <- ?app_assoc; reflexivity.
Qed.

(** X3.  Marshalling cannot fail for an error of this package or for an
    error that offers nothing but its text: RespondJSON answers them with
    a text, under the code of the error or 500, and on a writer that
    accepts the calls it returns what the Write of that text returned.  A
    value that json.Marshal rejects is answered with the status 200 all
    the same, without a body, and the marshalling error is returned. *)
Theorem RespondJSON_failures (w : http.ResponseWriter) :
  (forall p : httpError,
      exists text, RespondJSON w (VError (ptr p))
                   = respond (httpError_StatusCode p) (inl text) w) /\
  (forall s : string,
      exists text, RespondJSON w (VError (errorString s)) = respond 500 (inl text) w) /\
  (forall (status : Z) (text : string),
      accepted w [http.Header_Set "Content-Type" "application/json";
                  http.WriteHeader status; http.Write (text +:+ newline)] = true ->
      respond status (inl text) w
      = ((header_then_status w status ++ [http.Write (text +:+ newline)])%list,
         returned (http.Write_error (header_then_status w status) (text +:+ newline)))) /\
  (forall failure : error,
      RespondJSON w (VOther (inr failure)) = respond 200 (inr failure) w /\
      (accepted w [http.Header_Set "Content-Type" "application/json";
                   http.WriteHeader 200] = true ->
       RespondJSON w (VOther (inr failure))
       = (header_then_status w 200, returned (Some failure)))).
Proof.
  destruct (RespondJSON_respond w) as [Hother Herror].
  split; [|split; [|split]].
  - intros p. rewrite Herror. eexists. reflexivity.
  - intros s. rewrite Herror. eexists. reflexivity.
  - intros status text. apply respond_text.
  - intros failure. split; [apply Hother|].
    intros Hw. rewrite Hother, (respond_accepted _ _ _ Hw). reflexivity.
Qed.

(** X4.  An error of another package that has UnmarshalJSON is not wrapped:
    RespondJSON hands it to the encoder as it is, under its own status code
    or 500, and the result of marshalling it decides the outcome. *)
Theorem RespondJSON_unmarshaler (w : http.ResponseWriter) (f : foreign) :
  f_UnmarshalJSON f = true ->
  RespondJSON w (VError (foreignError f))
  = respond (match f_StatusCode f with
             | Some c => c
             | None => 500
             end)
            (f_json f) w.
Proof.
  intros Hu. destruct (RespondJSON_respond w) as [_ Herror].
  rewrite Herror. cbn [json_Unmarshaler StatusCoder]. rewrite Hu. reflexivity.
Qed.

(** X5.  Relaying: when the error that FromResponse made of a response is
    answered with RespondJSON, the status passed to WriteHeader is the
    status of that response and the message of the payload is the whole
    text of the HTTP error, code, status text and quoted cause.  On the
    new writer of a server the call panics when that status does not have
    three digits, and the Write is refused when the status allows no body
    (1xx, 204, 304); otherwise nil is returned. *)
Theorem RespondJSON_of_FromResponse (w : http.ResponseWriter) (r : http.Response) :
  exists cause : error,
    httpError_Unwrap (mk_httpError (http.StatusCode r) (Some cause)) = Some cause /\
    FromResponse r = New (http.StatusCode r) (Some cause) /\
    let payload :=
      json_Marshal
        {| Message := fmt_d (http.StatusCode r) +:+ " "
                      +:+ http_StatusText (http.StatusCode r) +:+ ": "
                      +:+ strconv_Quote (error_Error cause);
           Error := http_StatusText (http.StatusCode r);
           StatusCode := http.StatusCode r |} in
    RespondJSON w (VError (FromResponse r))
    = respond (http.StatusCode r) (inl payload) w /\
    RespondJSON (W := Go.http.response) [] (VError (FromResponse r))
    = if Go.http.checkWriteHeaderCode (http.StatusCode r) then
        (header_then_status [] (http.StatusCode r), panicked)
      else
        ((header_then_status [] (http.StatusCode r)
          ++ [http.Write (payload +:+ newline)])%list,
         returned (if Go.http.bodyAllowedForStatus (http.StatusCode r) then None
                   else Some Go.http.ErrBodyNotAllowed)).
Proof.
  assert (Hshape : exists cause, FromResponse r = New (http.StatusCode r) (Some cause)).
  { unfold FromResponse.
    destruct (http.Body r) as [data [readErr|]]; [eexists; reflexivity|].
    destruct (mime_ParseMediaType _) as [mediatype parseErr].
    destruct (is_text_mediatype mediatype); [eexists; reflexivity|].
    destruct (json_Unmarshal data Response_zero) as [tmp [failure|]];
      eexists; reflexivity. }
  destruct Hshape as [cause Hcause]. exists cause.
  split; [reflexivity|]. split; [exact Hcause|]. cbn zeta. rewrite Hcause.
  split; [reflexivity|].
  unfold RespondJSON, header_then_status, Encode, w_call, w_Write, mbind, action_bind.
  cbn [New StatusCoder httpError_StatusCode code json_Unmarshaler app
       http.panics http.Write_error Go.http.response Go.http.status].
  destruct (Go.http.checkWriteHeaderCode (http.StatusCode r)); [reflexivity|].
  cbn [app Go.http.status]. unfold newline.
  replace (String.length _ =? 0)%nat with false; [reflexivity|].
  symmetry. apply Nat.eqb_neq. rewrite length_append. cbn [String.length]. lia.
Qed.

End further_properties.

(** X6.  The number of range predicates that hold for a code: none below
    100 and from 600 on, one from 100 to 399, two from 400 to 599, where
    IsError holds beside the class of the code. *)
Theorem range_predicates_count (c : Z) :
  (c < 100 \/ 600 <= c -> count_true (range_predicates c) = 0%nat) /\
  (100 <= c < 400 -> count_true (range_predicates c) = 1%nat) /\
  (400 <= c < 600 -> count_true (range_predicates c) = 2%nat /\ IsError c = true).
Proof.
  unfold range_predicates, class_predicates, count_true, app.
  repeat match goal with |- _ /\ _ => split end; intros H; range_cases.
Qed.

(** ** json.Unmarshal reads back what json.Marshal writes *)

Open Scope list_scope.

Lemma valid_step (st st' : Go.json.state) (top top' : bool)
      (ps ps' : list Go.json.parse) (op : Go.json.opcode) (c : Z) (rest : list Z) :
  (forall n, Go.json.do_step (scanning st top ps n) c = (scanning st' top' ps' n, op)) ->
  op <> Go.json.scanError ->
  valid_from st' top' ps' rest ->
  valid_from st top ps (c :: rest).
Proof.
  intros Hstep Hop Hrest n. cbn [Go.json.checkValid].
  change (Go.json.count (scanning st top ps n)) with (scanning st top ps (n + 1)).
  rewrite Hstep. destruct op; try apply Hrest. congruence.
Qed.

Lemma build_step_eq (st st' : Go.json.state) (top top' : bool)
      (ps ps' : list Go.json.parse) (op : Go.json.opcode) (n c : Z) (rest : list Z)
      (b : Go.json.builder) :
  Go.json.do_step (scanning st top ps n) c = (scanning st' top' ps' n, op) ->
  Go.json.build (c :: rest) (scanning st top ps n) b
  = Go.json.build rest (scanning st' top' ps' n) (Go.json.build_step b c op).
Proof. intros H. cbn [Go.json.build]. now rewrite H. Qed.

Lemma isHex_hexdigit (x : Z) : Go.json.isHex (Go.hexdigit x) = true.
Proof.
  unfold Go.hexdigit, Go.json.isHex, Go.between.
  change 0xF with (Z.ones 4). rewrite Z.land_ones by lia.
  pose proof (Z.mod_pos_bound x (2 ^ 4) ltac:(lia)) as H. change (2 ^ 4) with 16 in *.
  destruct (x mod 16 <? 10) eqn:Hlt.
  - apply Z.ltb_lt in Hlt.
    replace (48 <=? 48 + x mod 16) with true by (symmetry; apply Z.leb_le; lia).
    replace (48 + x mod 16 <=? 57) with true by (symmetry; apply Z.leb_le; lia).
    reflexivity.
  - apply Z.ltb_ge in Hlt.
    replace (97 <=? 87 + x mod 16) with true by (symmetry; apply Z.leb_le; lia).
    replace (87 + x mod 16 <=? 102) with true by (symmetry; apply Z.leb_le; lia).
    cbn. now rewrite orb_true_r.
Qed.

Lemma raw_step (c : Z) (top : bool) (ps : list Go.json.parse) (n : Z) :
  32 <= c -> c <> 34 -> c <> 92 ->
  Go.json.do_step (scanning Go.json.stateInString top ps n) c
  = (scanning Go.json.stateInString top ps n, Go.json.scanContinue).
Proof.
  intros H32 H34 H92. unfold Go.json.do_step. cbn.
  destruct (Z.eqb_spec c 34); [lia|]. destruct (Z.eqb_spec c 92); [lia|].
  destruct (Z.ltb_spec c 32); [lia|]. reflexivity.
Qed.

Lemma hex_step (st next : Go.json.state) (h : Z) (top : bool)
      (ps : list Go.json.parse) (n : Z) :
  Go.json.isHex h = true ->
  Go.json.hexStep (scanning st top ps n) h next
  = (scanning next top ps n, Go.json.scanContinue).
Proof. intros Hh. unfold Go.json.hexStep. now rewrite Hh. Qed.

(** The scanner stays inside the string over what the encoder wrote. *)
Lemma valid_encoded (chunk rest : list Z) (top : bool) (ps : list Go.json.parse) :
  encoded chunk ->
  valid_from Go.json.stateInString top ps rest ->
  valid_from Go.json.stateInString top ps (chunk ++ rest).
Proof.
  intros Henc Hrest. induction Henc as [|c tl H32 H34 H92 _ IH|c tl Hc _ IH
                                        |h1 h2 h3 h4 tl H1 H2 H3 H4 _ IH]; cbn [app].
  - exact Hrest.
  - eapply valid_step; [intros n; apply raw_step; lia | discriminate | exact IH].
  - eapply valid_step; [intros n; cbv; reflexivity | discriminate |].
    destruct Hc as [->|[->|[->|[->| ->]]]];
      (eapply valid_step; [intros n; cbv; reflexivity | discriminate | exact IH]).
  - eapply valid_step; [intros n; cbv; reflexivity | discriminate |].
    eapply valid_step; [intros n; cbv; reflexivity | discriminate |].
    eapply valid_step; [intros n; now apply hex_step | discriminate |].
    eapply valid_step; [intros n; now apply hex_step | discriminate |].
    eapply valid_step; [intros n; now apply hex_step | discriminate |].
    eapply valid_step; [intros n; now apply hex_step | discriminate | exact IH].
Qed.

(** The builder collects it into the literal it is reading. *)
Lemma build_encoded (chunk rest : list Z) (top : bool) (ps : list Go.json.parse)
      (n : Z) (stack : list Go.json.frame) (tv : option Go.json.jvalue) :
  encoded chunk ->
  forall item : list Z,
    Go.json.build (chunk ++ rest) (scanning Go.json.stateInString top ps n)
                  (building stack (Some item) tv)
    = Go.json.build rest (scanning Go.json.stateInString top ps n)
                    (building stack (Some (item ++ chunk)) tv).
Proof.
  intros Henc. induction Henc as [|c tl H32 H34 H92 _ IH|c tl Hc _ IH
                                  |h1 h2 h3 h4 tl H1 H2 H3 H4 _ IH]; intros item; cbn [app].
  - now rewrite app_nil_r.
  - cbn [Go.json.build]. rewrite raw_step by lia.
    cbn. unfold building in IH. rewrite IH. now rewrite <- app_assoc.
  - destruct Hc as [->|[->|[->|[->| ->]]]];
      cbn; unfold building in IH; rewrite IH; now rewrite <- !app_assoc.
  - cbn [Go.json.build].
    change (Go.json.do_step (scanning Go.json.stateInString top ps n) 92)
      with (scanning Go.json.stateInStringEsc top ps n, Go.json.scanContinue).
    cbn [Go.json.build].
    change (Go.json.do_step (scanning Go.json.stateInStringEsc top ps n) 117)
      with (scanning Go.json.stateInStringEscU top ps n, Go.json.scanContinue).
    cbn [Go.json.build].
    change (Go.json.do_step (scanning Go.json.stateInStringEscU top ps n) h1)
      with (Go.json.hexStep (scanning Go.json.stateInStringEscU top ps n) h1
              Go.json.stateInStringEscU1).
    rewrite hex_step by assumption. cbn [Go.json.build].
    change (Go.json.do_step (scanning Go.json.stateInStringEscU1 top ps n) h2)
      with (Go.json.hexStep (scanning Go.json.stateInStringEscU1 top ps n) h2
              Go.json.stateInStringEscU12).
    rewrite hex_step by assumption. cbn [Go.json.build].
    change (Go.json.do_step (scanning Go.json.stateInStringEscU12 top ps n) h3)
      with (Go.json.hexStep (scanning Go.json.stateInStringEscU12 top ps n) h3
              Go.json.stateInStringEscU123).
    rewrite hex_step by assumption. cbn [Go.json.build].
    change (Go.json.do_step (scanning Go.json.stateInStringEscU123 top ps n) h4)
      with (Go.json.hexStep (scanning Go.json.stateInStringEscU123 top ps n) h4
              Go.json.stateInString).
    rewrite hex_step by assumption.
    cbn. unfold building in IH. rewrite IH. now rewrite <- !app_assoc.
Qed.

Lemma encoded_bytes (l : list Z) : encoded l -> Forall is_byte l.
Proof.
  unfold is_byte.
  induction 1 as [|c tl H32 H34 H92 _ IH|c tl Hc _ IH|h1 h2 h3 h4 tl H1 H2 H3 H4 _ IH].
  - constructor.
  - apply Forall_cons; split; [lia | exact IH].
  - do 2 (apply Forall_cons; split; [lia|]). exact IH.
  - assert (Hhex : forall h, Go.json.isHex h = true -> 0 <= h <= 255).
    { intros h Hh. unfold Go.json.isHex, Go.between in Hh.
      apply orb_true_iff in Hh as [Hh|Hh]; [apply orb_true_iff in Hh as [Hh|Hh]|];
        apply andb_true_iff in Hh as [Hlo Hhi]; apply Z.leb_le in Hlo, Hhi; lia. }
    do 2 (apply Forall_cons; split; [lia|]).
    do 4 (apply Forall_cons; split; [auto|]). exact IH.
Qed.

Lemma encoded_app (l rest : list Z) : encoded l -> encoded rest -> encoded (l ++ rest).
Proof.
  intros Hl Hrest.
  induction Hl as [|c tl H32 H34 H92 _ IH|c tl Hc _ IH|h1 h2 h3 h4 tl H1 H2 H3 H4 _ IH];
    cbn [app]; [assumption| | |]; constructor; assumption.
Qed.

Lemma encoded_raw_bytes (l : list Z) :
  Forall (fun c => 128 <= c <= 255) l -> encoded l.
Proof.
  induction 1 as [|c l Hc _ IH]; [apply encoded_nil|].
  apply encoded_raw; [lia | lia | lia | exact IH].
Qed.

(** utf8.DecodeRune reads bytes outside ASCII only, when the first one is. *)
Lemma DecodeRune_not_ascii (p : list Z) (r : Z) (w : nat) :
  Forall is_byte p ->
  Go.utf8.DecodeRune p = (r, w) ->
  match p with
  | s0 :: _ => 128 <= s0
  | [] => True
  end ->
  Forall (fun c => 128 <= c <= 255) (take w p).
Proof.
  intros Hp. unfold Go.utf8.DecodeRune.
  destruct p as [|s0 t]; [intros [= <- <-] _; constructor|].
  apply Forall_cons in Hp as [H0 Hp]. unfold is_byte in *.
  intros Hdec Hs0. revert Hdec.
  destruct (s0 <? Go.utf8.RuneSelf) eqn:Hascii.
  { apply Z.ltb_lt in Hascii. unfold Go.utf8.RuneSelf in Hascii. lia. }
  unfold Go.utf8.first.
  repeat match goal with
         | |- context [if ?c then _ else _] =>
             lazymatch c with
             | context [if _ then _ else _] => fail
             | _ => destruct c eqn:?
             end
         | |- context [match ?l with [] => _ | _ :: _ => _ end] =>
             is_var l; destruct l
         | H : Forall _ (_ :: _) |- _ => apply Forall_cons in H as [? ?]
         end;
    intros [= <- <-]; bool_to_arith; cbn [take];
    repeat (apply Forall_cons; split; [unfold is_byte in *; lia|]);
    apply Forall_nil; exact I.
Qed.

(** What the encoder writes between the quotes of a string. *)
Lemma string_loop_encoded (turns : nat) :
  forall s : list Z, Forall is_byte s -> encoded (Go.json.string_loop turns s).
Proof.
  induction turns as [|turns IH]; intros s Hs; [destruct s; constructor|].
  destruct s as [|b t]; [constructor|].
  cbn [Go.json.string_loop].
  pose proof Hs as Hbt. apply Forall_cons in Hs as [Hb Ht]. unfold is_byte in Hb.
  destruct (b <? Go.utf8.RuneSelf) eqn:Hascii.
  - apply encoded_app; [|now apply IH].
    destruct (Go.json.htmlSafeSet b) eqn:Hsafe.
    { unfold Go.json.htmlSafeSet, Go.between in Hsafe.
      apply andb_true_iff in Hsafe as [Hr Hno]. apply andb_true_iff in Hr as [Hlo Hhi].
      apply negb_true_iff in Hno. rewrite !orb_false_iff in Hno.
      destruct Hno as [[[[H34 H92] _] _] _].
      apply Z.leb_le in Hlo. apply Z.eqb_neq in H34, H92.
      apply encoded_raw; [lia | assumption | assumption | apply encoded_nil]. }
    destruct ((b =? 92) || (b =? 34)) eqn:Hq.
    { apply orb_true_iff in Hq as [Hq|Hq]; apply Z.eqb_eq in Hq; subst b;
        (apply encoded_escape; [tauto | apply encoded_nil]). }
    destruct (b =? 10); [apply encoded_escape; [tauto | apply encoded_nil]|].
    destruct (b =? 13); [apply encoded_escape; [tauto | apply encoded_nil]|].
    destruct (b =? 9); [apply encoded_escape; [tauto | apply encoded_nil]|].
    apply encoded_hex; try reflexivity; try apply isHex_hexdigit. apply encoded_nil.
  - destruct (Go.utf8.DecodeRune (b :: t)) as [c size] eqn:Hdec.
    apply encoded_app; [|apply IH; now apply Forall_drop].
    destruct ((c =? Go.utf8.RuneError) && (size =? 1)%nat).
    { apply encoded_hex; try reflexivity. apply encoded_nil. }
    destruct ((c =? 8232) || (c =? 8233)).
    { apply encoded_hex; try reflexivity; try apply isHex_hexdigit. apply encoded_nil. }
    apply encoded_raw_bytes. eapply DecodeRune_not_ascii; [exact Hbt | exact Hdec |].
    apply Z.ltb_ge in Hascii. unfold Go.utf8.RuneSelf in Hascii. lia.
Qed.

Lemma encode_string_shape (s : string) :
  exists inner : list Z,
    Go.json.encode_string s = 34 :: inner ++ [34] /\ encoded inner /\
    inner = Go.json.string_loop (length (Go.bytes s)) (Go.bytes s).
Proof.
  eexists. split; [reflexivity|]. split; [|reflexivity].
  apply string_loop_encoded, bytes_are_bytes.
Qed.

Lemma byte_of_ascii_of (b : Z) : is_byte b -> Go.byte_of (Go.ascii_of b) = b.
Proof.
  unfold is_byte, Go.byte_of, Go.ascii_of. intros Hb.
  rewrite N_ascii_embedding by lia. lia.
Qed.

Lemma bytes_str (l : list Z) : Forall is_byte l -> Go.bytes (Go.str l) = l.
Proof.
  unfold Go.bytes, Go.str. rewrite list_ascii_of_string_of_list_ascii, map_map.
  induction 1 as [|b l Hb _ IH]; cbn; [reflexivity|].
  now rewrite byte_of_ascii_of, IH.
Qed.

Lemma hexval_hexdigit (x : Z) : Go.json.hexval (Go.hexdigit x) = x mod 16.
Proof.
  unfold Go.hexdigit, Go.json.hexval, Go.json.isDigit, Go.between.
  change 0xF with (Z.ones 4). rewrite Z.land_ones by lia. change (2 ^ 4) with 16.
  pose proof (Z.mod_pos_bound x 16 ltac:(lia)) as H.
  destruct (x mod 16 <? 10) eqn:Hlt.
  - apply Z.ltb_lt in Hlt.
    replace (48 <=? 48 + x mod 16) with true by (symmetry; apply Z.leb_le; lia).
    replace (48 + x mod 16 <=? 57) with true by (symmetry; apply Z.leb_le; lia).
    cbn. lia.
  - apply Z.ltb_ge in Hlt.
    replace (87 + x mod 16 <=? 57) with false by (symmetry; apply Z.leb_gt; lia).
    rewrite andb_false_r.
    replace (97 <=? 87 + x mod 16) with true by (symmetry; apply Z.leb_le; lia).
    replace (87 + x mod 16 <=? 102) with true by (symmetry; apply Z.leb_le; lia).
    cbn. lia.
Qed.

(** *** UTF-8 *)

Lemma lor_disjoint (a b n : Z) :
  0 <= n -> a mod 2 ^ n = 0 -> 0 <= b < 2 ^ n -> Z.lor a b = a + b.
Proof.
  intros Hn Ha Hb. symmetry. apply Z.add_nocarry_lor.
  apply Z.bits_inj'. intros i Hi. rewrite Z.land_spec, Z.bits_0.
  destruct (Z.lt_ge_cases i n) as [Hlt|Hge].
  - rewrite <- (Z.mod_pow2_bits_low a n i) by lia. rewrite Ha, Z.bits_0. reflexivity.
  - rewrite <- (Z.mod_small b (2 ^ n)) by lia.
    rewrite Z.mod_pow2_bits_high by lia. apply andb_false_r.
Qed.

(** The rows of the table [first]. *)
Lemma first_cases (s0 lo hi : Z) (sz : nat) :
  Go.utf8.first s0 = Some (sz, lo, hi) ->
  (sz = 2%nat /\ 0xC2 <= s0 <= 0xDF /\ lo = 0x80 /\ hi = 0xBF) \/
  (sz = 3%nat /\ 0xE0 <= s0 <= 0xEF
   /\ lo = (if s0 =? 0xE0 then 0xA0 else 0x80)
   /\ hi = (if s0 =? 0xED then 0x9F else 0xBF)) \/
  (sz = 4%nat /\ 0xF0 <= s0 <= 0xF4
   /\ lo = (if s0 =? 0xF0 then 0x90 else 0x80)
   /\ hi = (if s0 =? 0xF4 then 0x8F else 0xBF)).
Proof.
  unfold Go.utf8.first, Go.between.
  repeat match goal with
         | |- context [if ?c then Some _ else _] => destruct c eqn:?
         end;
    intros [= <- <- <-]; bool_to_arith;
    [left | right; left | right; left | right; left | right; left
     | right; right | right; right | right; right];
    repeat split; try lia;
    repeat match goal with
           | |- context [(?a =? ?b)%Z] => destruct (Z.eqb_spec a b)
           end; lia.
Qed.

Ltac rune_arith :=
  unfold Go.utf8.low6;
  change 0x1F with (Z.ones 5); change 0x0F with (Z.ones 4);
  change 0x07 with (Z.ones 3); change 0x3F with (Z.ones 6);
  rewrite ?Z.land_ones by lia; rewrite ?Z.shiftl_mul_pow2 by lia;
  rewrite ?Z.shiftr_div_pow2 by lia;
  change (2 ^ 3) with 8; change (2 ^ 4) with 16; change (2 ^ 5) with 32;
  change (2 ^ 6) with 64; change (2 ^ 12) with 4096; change (2 ^ 18) with 262144.

(** The rune of two bytes, and its bytes. *)
Lemma rune2_value (s0 s1 : Z) :
  0xC2 <= s0 <= 0xDF -> 0x80 <= s1 <= 0xBF ->
  let r := Z.lor (Z.shiftl (Z.land s0 0x1F) 6) (Go.utf8.low6 s1) in
  r = (s0 - 0xC0) * 64 + (s1 - 0x80) /\
  Z.lor 0xC0 (Z.shiftr r 6) = s0 /\ Z.lor 0x80 (Go.utf8.low6 r) = s1.
Proof.
  intros H0 H1. cbn zeta.
  assert (Hr : Z.lor (Z.shiftl (Z.land s0 0x1F) 6) (Go.utf8.low6 s1)
               = (s0 - 0xC0) * 64 + (s1 - 0x80)).
  { rune_arith. rewrite (lor_disjoint _ _ 6) by mlia. mlia. }
  rewrite Hr. split; [reflexivity|]. rune_arith.
  split; rewrite (lor_disjoint _ _ 6) by mlia; mlia.
Qed.

Lemma rune3_value (s0 s1 s2 : Z) :
  0xE0 <= s0 <= 0xEF -> 0x80 <= s1 <= 0xBF -> 0x80 <= s2 <= 0xBF ->
  let r := Z.lor (Z.lor (Z.shiftl (Z.land s0 0x0F) 12)
                        (Z.shiftl (Go.utf8.low6 s1) 6)) (Go.utf8.low6 s2) in
  r = (s0 - 0xE0) * 4096 + (s1 - 0x80) * 64 + (s2 - 0x80) /\
  Z.lor 0xE0 (Z.shiftr r 12) = s0 /\
  Z.lor 0x80 (Go.utf8.low6 (Z.shiftr r 6)) = s1 /\
  Z.lor 0x80 (Go.utf8.low6 r) = s2.
Proof.
  intros H0 H1 H2. cbn zeta.
  assert (Hr : Z.lor (Z.lor (Z.shiftl (Z.land s0 0x0F) 12)
                            (Z.shiftl (Go.utf8.low6 s1) 6)) (Go.utf8.low6 s2)
               = (s0 - 0xE0) * 4096 + (s1 - 0x80) * 64 + (s2 - 0x80)).
  { rune_arith. rewrite (lor_disjoint (s0 mod 16 * 4096) _ 12) by mlia.
    rewrite (lor_disjoint _ _ 6) by mlia. mlia. }
  rewrite Hr. split; [reflexivity|]. rune_arith.
  split; [rewrite (lor_disjoint _ _ 4) by mlia; mlia|].
  split; rewrite (lor_disjoint _ _ 6) by mlia; mlia.
Qed.

Lemma rune4_value (s0 s1 s2 s3 : Z) :
  0xF0 <= s0 <= 0xF4 -> 0x80 <= s1 <= 0xBF -> 0x80 <= s2 <= 0xBF ->
  0x80 <= s3 <= 0xBF ->
  let r := Z.lor (Z.lor (Z.lor (Z.shiftl (Z.land s0 0x07) 18)
                               (Z.shiftl (Go.utf8.low6 s1) 12))
                        (Z.shiftl (Go.utf8.low6 s2) 6)) (Go.utf8.low6 s3) in
  r = (s0 - 0xF0) * 262144 + (s1 - 0x80) * 4096 + (s2 - 0x80) * 64 + (s3 - 0x80) /\
  Z.lor 0xF0 (Z.shiftr r 18) = s0 /\
  Z.lor 0x80 (Go.utf8.low6 (Z.shiftr r 12)) = s1 /\
  Z.lor 0x80 (Go.utf8.low6 (Z.shiftr r 6)) = s2 /\
  Z.lor 0x80 (Go.utf8.low6 r) = s3.
Proof.
  intros H0 H1 H2 H3. cbn zeta.
  assert (Hr : Z.lor (Z.lor (Z.lor (Z.shiftl (Z.land s0 0x07) 18)
                                   (Z.shiftl (Go.utf8.low6 s1) 12))
                            (Z.shiftl (Go.utf8.low6 s2) 6)) (Go.utf8.low6 s3)
               = (s0 - 0xF0) * 262144 + (s1 - 0x80) * 4096 + (s2 - 0x80) * 64
                 + (s3 - 0x80)).
  { rune_arith. rewrite (lor_disjoint (s0 mod 8 * 262144) _ 18) by mlia.
    rewrite (lor_disjoint _ (s2 mod 64 * 64) 12) by mlia.
    rewrite (lor_disjoint _ _ 6) by mlia. mlia. }
  rewrite Hr. split; [reflexivity|]. rune_arith.
  split; [rewrite (lor_disjoint _ _ 3) by mlia; mlia|].
  repeat split; rewrite (lor_disjoint _ _ 6) by mlia; mlia.
Qed.

Lemma between_bounds (lo x hi : Z) : Go.between lo x hi = true -> lo <= x <= hi.
Proof.
  unfold Go.between. intros H. apply andb_true_iff in H as [H1 H2].
  apply Z.leb_le in H1, H2. lia.
Qed.

(** The second byte that a leading byte accepts is a continuation byte. *)
Lemma first_second (s0 s1 lo hi : Z) (sz : nat) :
  Go.utf8.first s0 = Some (sz, lo, hi) -> Go.between lo s1 hi = true ->
  0x80 <= s1 <= 0xBF.
Proof.
  intros Hfirst Hs1. apply between_bounds in Hs1.
  destruct (first_cases _ _ _ _ Hfirst) as [H|[H|H]];
    destruct H as (_ & _ & -> & ->);
    repeat match goal with
           | H : context [(?a =? ?b)%Z] |- _ => destruct (Z.eqb_spec a b)
           end; lia.
Qed.

(** The bytes of an encoding are outside ASCII. *)
Lemma encoding_bytes (item : list Z) (r : Z) :
  encoding item r -> Forall (fun c => 128 <= c <= 255) item /\ (2 <= length item)%nat.
Proof.
  intros [s0 s1 lo hi Hf H1 | s0 s1 s2 lo hi Hf H1 H2 | s0 s1 s2 s3 lo hi Hf H1 H2 H3];
    pose proof (first_second _ _ _ _ _ Hf H1) as Hs1;
    (destruct (first_cases _ _ _ _ Hf) as [H|[H|H]]; destruct H as (Hsz & Hs0 & _ & _));
    try discriminate Hsz;
    repeat match goal with
           | H : Go.utf8.cont _ = true |- _ => apply between_bounds in H
           end;
    (split; [|cbn; lia]);
    repeat (apply Forall_cons_2; [lia|]); apply Forall_nil_2.
Qed.

(** utf8.EncodeRune writes the encoding back. *)
Lemma EncodeRune_encoding (item : list Z) (r : Z) :
  encoding item r -> Go.utf8.EncodeRune r = item.
Proof.
  intros [s0 s1 lo hi Hf H1 | s0 s1 s2 lo hi Hf H1 H2 | s0 s1 s2 s3 lo hi Hf H1 H2 H3];
    pose proof (first_second _ _ _ _ _ Hf H1) as Hs1;
    pose proof (between_bounds _ _ _ H1) as Hrange;
    (destruct (first_cases _ _ _ _ Hf) as [H|[H|H]];
     destruct H as (Hsz & Hs0 & Hlo & Hhi));
    try discriminate Hsz;
    repeat match goal with
           | H : Go.utf8.cont _ = true |- _ => apply between_bounds in H
           end.
  - destruct (rune2_value s0 s1 Hs0 Hs1) as (Hr & Hb0 & Hb1).
    unfold Go.utf8.EncodeRune. rewrite Hb0, Hb1, Hr.
    replace (_ <? 0) with false by (symmetry; apply Z.ltb_ge; lia).
    replace (_ <=? 0x7F) with false by (symmetry; apply Z.leb_gt; lia).
    replace (_ <=? 0x7FF) with true by (symmetry; apply Z.leb_le; lia).
    reflexivity.
  - destruct (rune3_value s0 s1 s2 Hs0 Hs1 H2) as (Hr & Hb0 & Hb1 & Hb2).
    assert (Hlo' : s0 = 0xE0 -> 0xA0 <= s1).
    { intros ->. subst lo. cbn in Hrange. lia. }
    assert (Hhi' : s0 = 0xED -> s1 <= 0x9F).
    { intros ->. subst hi. cbn in Hrange. lia. }
    unfold Go.utf8.EncodeRune, Go.utf8.encode3. rewrite Hb0, Hb1, Hb2, Hr.
    unfold Go.utf8.MaxRune, Go.between.
    replace (_ <? 0) with false by (symmetry; apply Z.ltb_ge; lia).
    replace (_ <=? 0x7F) with false by (symmetry; apply Z.leb_gt; lia).
    replace (_ <=? 0x7FF) with false by (symmetry; apply Z.leb_gt; lia).
    replace (0x10FFFF <? _) with false by (symmetry; apply Z.ltb_ge; lia).
    replace ((0xD800 <=? _) && (_ <=? 0xDFFF)) with false.
    2:{ symmetry. apply andb_false_iff.
        destruct (Z.le_gt_cases s0 0xED); [left; apply Z.leb_gt | right; apply Z.leb_gt];
          lia. }
    cbn [orb].
    replace (_ <=? 0xFFFF) with true by (symmetry; apply Z.leb_le; lia).
    reflexivity.
  - destruct (rune4_value s0 s1 s2 s3 Hs0 Hs1 H2 H3) as (Hr & Hb0 & Hb1 & Hb2 & Hb3).
    assert (Hlo' : s0 = 0xF0 -> 0x90 <= s1).
    { intros ->. subst lo. cbn in Hrange. lia. }
    assert (Hhi' : s0 = 0xF4 -> s1 <= 0x8F).
    { intros ->. subst hi. cbn in Hrange. lia. }
    unfold Go.utf8.EncodeRune. rewrite Hb0, Hb1, Hb2, Hb3, Hr.
    unfold Go.utf8.MaxRune, Go.between.
    replace (_ <? 0) with false by (symmetry; apply Z.ltb_ge; lia).
    replace (_ <=? 0x7F) with false by (symmetry; apply Z.leb_gt; lia).
    replace (_ <=? 0x7FF) with false by (symmetry; apply Z.leb_gt; lia).
    replace (0x10FFFF <? _) with false by (symmetry; apply Z.ltb_ge; lia).
    replace (_ <=? 0xDFFF) with false by (symmetry; apply Z.leb_gt; lia).
    rewrite andb_false_r. cbn [orb].
    replace (_ <=? 0xFFFF) with false by (symmetry; apply Z.leb_gt; lia).
    reflexivity.
Qed.

(** utf8.DecodeRune reads an encoding, whatever follows it. *)
Lemma DecodeRune_encoding (item : list Z) (r : Z) (rest : list Z) :
  encoding item r -> Go.utf8.DecodeRune (item ++ rest) = (r, length item).
Proof.
  intros [s0 s1 lo hi Hf H1 | s0 s1 s2 lo hi Hf H1 H2 | s0 s1 s2 s3 lo hi Hf H1 H2 H3];
    (assert (Hs0 : 0xC2 <= s0)
      by (destruct (first_cases _ _ _ _ Hf) as [H|[H|H]]; lia));
    cbn [app Go.utf8.DecodeRune length];
    (replace (s0 <? Go.utf8.RuneSelf) with false
      by (symmetry; apply Z.ltb_ge; unfold Go.utf8.RuneSelf; lia));
    rewrite Hf; cbn [Nat.ltb Nat.leb negb];
    rewrite ?H1, ?H2, ?H3; cbn [Nat.ltb Nat.leb negb]; reflexivity.
Qed.

(** What utf8.DecodeRune returns outside ASCII: the error rune on one byte,
    or a rune on the bytes of its encoding. *)
Lemma DecodeRune_inv (s0 : Z) (t : list Z) (r : Z) (size : nat) :
  128 <= s0 ->
  Go.utf8.DecodeRune (s0 :: t) = (r, size) ->
  (r = Go.utf8.RuneError /\ size = 1%nat) \/
  (encoding (take size (s0 :: t)) r /\ length (take size (s0 :: t)) = size).
Proof.
  intros Hs0. unfold Go.utf8.DecodeRune.
  replace (s0 <? Go.utf8.RuneSelf) with false
    by (symmetry; apply Z.ltb_ge; unfold Go.utf8.RuneSelf; lia).
  destruct (Go.utf8.first s0) as [[[sz lo] hi]|] eqn:Hf;
    [|intros [= <- <-]; left; split; reflexivity].
  destruct (first_cases _ _ _ _ Hf) as [H|[H|H]]; destruct H as (-> & _ & _ & _);
    repeat match goal with
           | |- context [match ?l with [] => _ | _ :: _ => _ end] =>
               is_var l; destruct l
           end;
    cbn [length Nat.ltb Nat.leb];
    repeat match goal with
           | |- context [if negb ?c then _ else _] => destruct c eqn:?; cbn [negb]
           end;
    intros [= <- <-];
    solve [ left; split; reflexivity
          | right; cbn [take length]; split; [|reflexivity];
            econstructor; eassumption ].
Qed.

Lemma coerce_ascii_step (turns : nat) (b : Z) (t : list Z) :
  b < 128 -> coerce (S turns) (b :: t) = b :: coerce turns t.
Proof.
  intros Hb. cbn [coerce].
  replace (b <? Go.utf8.RuneSelf) with true
    by (symmetry; apply Z.ltb_lt; unfold Go.utf8.RuneSelf; lia).
  reflexivity.
Qed.

(** unquoteBytes undoes the encoder, up to the bytes that are not UTF-8. *)
Lemma unquote_string_loop_coerce (turns : nat) :
  forall (s : list Z) (k : nat),
    Forall is_byte s -> (length s <= turns)%nat -> (length s <= k)%nat ->
    Go.json.unquote_loop k (Go.json.string_loop turns s) = Some (coerce turns s).
Proof.
  induction turns as [|turns IH]; intros s k Hs Hturns Hk.
  { destruct s; [destruct k; reflexivity | cbn in Hturns; lia]. }
  destruct s as [|b t]; [destruct k; reflexivity|].
  destruct k as [|k]; [cbn in Hk; lia|].
  cbn [length] in *.
  pose proof Hs as Hbt. apply Forall_cons in Hs as [Hb Ht]. unfold is_byte in Hb.
  destruct (b <? Go.utf8.RuneSelf) eqn:Hascii.
  - apply Z.ltb_lt in Hascii. unfold Go.utf8.RuneSelf in Hascii.
    pose proof (IH t k Ht ltac:(lia) ltac:(lia)) as IHt.
    rewrite coerce_ascii_step by lia.
    cbn [Go.json.string_loop].
    replace (b <? Go.utf8.RuneSelf) with true
      by (symmetry; apply Z.ltb_lt; unfold Go.utf8.RuneSelf; lia).
    destruct (Go.json.htmlSafeSet b) eqn:Hsafe.
    { unfold Go.json.htmlSafeSet, Go.between in Hsafe.
      apply andb_true_iff in Hsafe as [Hr Hno]. apply andb_true_iff in Hr as [Hlo Hhi].
      apply negb_true_iff in Hno. rewrite !orb_false_iff in Hno.
      destruct Hno as [[[[H34 H92] _] _] _]. apply Z.leb_le in Hlo.
      cbn [app Go.json.unquote_loop]. rewrite H92, H34.
      replace (b <? 32) with false by (symmetry; apply Z.ltb_ge; lia).
      replace (b <? Go.utf8.RuneSelf) with true
        by (symmetry; apply Z.ltb_lt; unfold Go.utf8.RuneSelf; lia).
      cbn [orb]. now rewrite IHt. }
    destruct ((b =? 92) || (b =? 34)) eqn:Hq.
    { apply orb_true_iff in Hq as [Hq|Hq]; apply Z.eqb_eq in Hq; subst b;
        cbn [app Go.json.unquote_loop Z.eqb Pos.eqb orb]; now rewrite IHt. }
    destruct (Z.eqb_spec b 10) as [->|H10];
      [cbn [app Go.json.unquote_loop Z.eqb Pos.eqb orb]; now rewrite IHt|].
    destruct (Z.eqb_spec b 13) as [->|H13];
      [cbn [app Go.json.unquote_loop Z.eqb Pos.eqb orb]; now rewrite IHt|].
    destruct (Z.eqb_spec b 9) as [->|H9];
      [cbn [app Go.json.unquote_loop Z.eqb Pos.eqb orb]; now rewrite IHt|].
    cbn [app Go.json.unquote_loop]. cbn [Z.eqb Pos.eqb orb].
    unfold Go.json.getu4.
    rewrite !isHex_hexdigit. change (Go.json.isHex 48) with true. cbn [andb].
    rewrite !hexval_hexdigit. change (Go.json.hexval 48) with 0.
    rewrite Z.shiftr_div_pow2 by lia. change (2 ^ 4) with 16.
    replace (((0 * 16 + 0) * 16 + (b / 16) mod 16) * 16 + b mod 16) with b
      by (Z.to_euclidean_division_equations; lia).
    replace (b <? 0) with false by (symmetry; apply Z.ltb_ge; lia).
    unfold Go.json.IsSurrogate.
    replace (55296 <=? b) with false by (symmetry; apply Z.leb_gt; lia).
    cbn [andb]. simpl drop. rewrite drop_0, IHt.
    unfold Go.utf8.EncodeRune.
    replace (b <? 0) with false by (symmetry; apply Z.ltb_ge; lia).
    replace (b <=? 127) with true by (symmetry; apply Z.leb_le; lia).
    reflexivity.
  - pose proof Hascii as H128. apply Z.ltb_ge in H128. unfold Go.utf8.RuneSelf in H128.
    cbn [Go.json.string_loop coerce]. rewrite Hascii.
    destruct (Go.utf8.DecodeRune (b :: t)) as [c size] eqn:Hdec.
    pose proof (DecodeRune_width _ _ _ Hbt Hdec) as [Hsize Hkind]. cbn [length] in Hsize.
    assert (Hpos : (1 <= size)%nat).
    { destruct Hkind as [(_ & _ & H)|[_ ->]]; [rewrite H; [lia|discriminate]|].
      apply RuneLen_pos. }
    assert (IHt : Go.json.unquote_loop k (Go.json.string_loop turns (drop size (b :: t)))
                  = Some (coerce turns (drop size (b :: t)))).
    { apply IH; [now apply Forall_drop | |]; rewrite length_drop; cbn [length]; lia. }
    destruct (DecodeRune_inv _ _ _ _ H128 Hdec) as [[-> ->]|[Henc Hlen]].
    + cbn [Z.eqb Pos.eqb Nat.eqb andb Go.utf8.RuneError].
      change (Go.utf8.RuneError =? Go.utf8.RuneError) with true. cbn [andb].
      cbn [app Go.json.unquote_loop Z.eqb Pos.eqb orb].
      change (Go.json.getu4 (92 :: 117 :: 102 :: 102 :: 102 :: 100
                             :: Go.json.string_loop turns (drop 1 (b :: t))))
        with 0xFFFD.
      cbn [Z.ltb Z.compare]. change (Go.json.IsSurrogate 65533) with false.
      cbn [drop] in *. rewrite !drop_0 in *. rewrite IHt. reflexivity.
    + pose proof (EncodeRune_encoding _ _ Henc) as Hitem.
      pose proof (encoding_bytes _ _ Henc) as [Hraw Htwo].
      replace ((c =? Go.utf8.RuneError) && (size =? 1)%nat) with false
        by (symmetry; apply andb_false_iff; right; apply Nat.eqb_neq; lia).
      destruct ((c =? 8232) || (c =? 8233)) eqn:Hsep.
      * assert (Hget : Go.json.getu4
                         (92 :: 117 :: 50 :: 48 :: 50 :: Go.hexdigit c
                          :: Go.json.string_loop turns (drop size (b :: t))) = c).
        { apply orb_true_iff in Hsep as [Hc|Hc]; apply Z.eqb_eq in Hc; subst c;
            reflexivity. }
        cbn [app Go.json.unquote_loop Z.eqb Pos.eqb orb]. rewrite Hget.
        replace (c <? 0) with false
          by (apply orb_true_iff in Hsep as [Hc|Hc]; apply Z.eqb_eq in Hc; subst c;
              reflexivity).
        replace (Go.json.IsSurrogate c) with false
          by (apply orb_true_iff in Hsep as [Hc|Hc]; apply Z.eqb_eq in Hc; subst c;
              reflexivity).
        cbn [drop]. rewrite ?drop_0. rewrite IHt, Hitem. reflexivity.
      * destruct size as [|size']; [lia|]. cbn [take] in *.
        cbn [app Go.json.unquote_loop].
        replace (b =? 92) with false by (symmetry; apply Z.eqb_neq; lia).
        replace (b =? 34) with false by (symmetry; apply Z.eqb_neq; lia).
        replace (b <? 32) with false by (symmetry; apply Z.ltb_ge; lia).
        rewrite Hascii. cbn [orb].
        change (b :: take size' t ++ Go.json.string_loop turns (drop (S size') (b :: t)))
          with ((b :: take size' t)
                ++ Go.json.string_loop turns (drop (S size') (b :: t))).
        rewrite (DecodeRune_encoding _ _ _ Henc), Hitem.
        rewrite drop_app_length, IHt. reflexivity.
Qed.

(** The encoder never shortens a text. *)
Lemma string_loop_length (turns : nat) :
  forall s : list Z,
    Forall is_byte s -> (length s <= turns)%nat ->
    (length s <= length (Go.json.string_loop turns s))%nat.
Proof.
  induction turns as [|turns IH]; intros s Hs Hturns.
  { destruct s; cbn in *; lia. }
  destruct s as [|b t]; [cbn; lia|].
  cbn [length] in *. pose proof Hs as Hbt. apply Forall_cons in Hs as [Hb Ht].
  cbn [Go.json.string_loop].
  destruct (b <? Go.utf8.RuneSelf) eqn:Hascii.
  - rewrite length_app. pose proof (IH t Ht ltac:(lia)).
    repeat match goal with
           | |- context [if ?c then _ else _] => destruct c
           end; cbn [length]; lia.
  - destruct (Go.utf8.DecodeRune (b :: t)) as [c size] eqn:Hdec.
    pose proof (DecodeRune_width _ _ _ Hbt Hdec) as [Hsize Hkind]. cbn [length] in Hsize.
    assert (Hbound : (1 <= size <= 4)%nat).
    { destruct Hkind as [(_ & H1 & H)|[_ ->]].
      - rewrite H; [lia|discriminate].
      - pose proof (RuneLen_pos c). unfold RuneLen in *.
        repeat match goal with
               | |- context [if ?c then _ else _] => destruct c
               end; lia. }
    assert (Hrest : (length (drop size (b :: t))
                     <= length (Go.json.string_loop turns (drop size (b :: t))))%nat).
    { apply IH; [now apply Forall_drop|]. rewrite length_drop. cbn [length]. lia. }
    rewrite length_drop in Hrest at 1. cbn [length] in Hrest.
    rewrite length_app.
    repeat match goal with
           | |- context [if ?c then _ else _] => destruct c
           end; cbn [length]; try lia.
    rewrite length_take. cbn [length]. lia.
Qed.

(** A text that is valid UTF-8 is read back as it is. *)
Lemma coerce_valid (s : list Z) :
  valid_utf8 s -> forall turns : nat, (length s <= turns)%nat -> coerce turns s = s.
Proof.
  induction 1 as [|b rest Hb _ IH|item r rest Henc _ IH]; intros turns Hturns.
  - destruct turns; reflexivity.
  - destruct turns as [|turns]; [cbn in Hturns; lia|]. cbn [length] in Hturns.
    rewrite coerce_ascii_step by lia. now rewrite IH by lia.
  - pose proof (encoding_bytes _ _ Henc) as [Hraw Htwo].
    pose proof (DecodeRune_encoding _ _ rest Henc) as Hdec.
    rewrite length_app in Hturns.
    destruct turns as [|turns]; [lia|].
    destruct item as [|s0 item']; [cbn in Htwo; lia|].
    apply Forall_cons in Hraw as [Hs0 _].
    cbn [app coerce].
    replace (s0 <? Go.utf8.RuneSelf) with false
      by (symmetry; apply Z.ltb_ge; unfold Go.utf8.RuneSelf; lia).
    change (s0 :: item' ++ rest) with ((s0 :: item') ++ rest).
    rewrite Hdec.
    replace (length (s0 :: item') =? 1)%nat with false
      by (symmetry; apply Nat.eqb_neq; lia).
    rewrite andb_false_r, take_app_length, drop_app_length.
    rewrite IH by (cbn [length] in *; lia). reflexivity.
Qed.

Lemma ascii_valid (s : list Z) : Forall (fun b => 0 <= b < 128) s -> valid_utf8 s.
Proof.
  induction 1 as [|b s Hb _ IH]; [apply valid_nil | now apply valid_ascii].
Qed.

(** The literal of a string that the encoder wrote. *)
Lemma literal_string_coerce (s : list Z) :
  Forall is_byte s ->
  Go.json.literal (34 :: Go.json.string_loop (length s) s ++ [34])
  = Some (Go.json.JString (coerce (length s) s)).
Proof.
  intros Hs. cbn [Go.json.literal]. unfold Go.json.unquoteBytes.
  rewrite last_snoc.
  rewrite length_app. cbn [length].
  replace (length (Go.json.string_loop (length s) s) + 1 - 1)%nat
    with (length (Go.json.string_loop (length s) s)) by lia.
  rewrite take_app_length.
  rewrite unquote_string_loop_coerce;
    [reflexivity | assumption | lia | now apply string_loop_length].
Qed.

Lemma coerce_bytes (turns : nat) :
  forall s : list Z, Forall is_byte s -> Forall is_byte (coerce turns s).
Proof.
  induction turns as [|turns IH]; intros s Hs; [destruct s; apply Forall_nil_2|].
  destruct s as [|b t]; [apply Forall_nil_2|].
  cbn [coerce]. pose proof Hs as Hbt. apply Forall_cons in Hs as [Hb Ht].
  destruct (b <? Go.utf8.RuneSelf); [apply Forall_cons_2; [exact Hb | now apply IH]|].
  destruct (Go.utf8.DecodeRune (b :: t)) as [c size].
  apply Forall_app_2; [|apply IH; now apply Forall_drop].
  destruct ((c =? Go.utf8.RuneError) && (size =? 1)%nat).
  - change (Go.utf8.EncodeRune Go.utf8.RuneError) with [239; 191; 189].
    repeat (apply Forall_cons_2; [unfold is_byte; lia|]). apply Forall_nil_2.
  - now apply Forall_take.
Qed.

(** *** Decimal numbers *)

Lemma bytes_string_of_uint (d : Decimal.uint) :
  Go.bytes (NilEmpty.string_of_uint d) = digits_of d.
Proof.
  unfold Go.bytes.
  induction d as [|d IH|d IH|d IH|d IH|d IH|d IH|d IH|d IH|d IH|d IH];
    cbn [NilEmpty.string_of_uint list_ascii_of_string map digits_of];
    [reflexivity | rewrite IH; reflexivity ..].
Qed.

Lemma digits_of_digits (d : Decimal.uint) : Forall (fun c => 48 <= c <= 57) (digits_of d).
Proof.
  induction d; cbn [digits_of]; [constructor | apply Forall_cons; split; [lia | assumption] ..].
Qed.

Lemma digits_acc (d : Decimal.uint) :
  forall acc : positive,
    fold_left (fun a c => a * 10 + (c - 48)) (digits_of d) (Z.pos acc)
    = Z.pos (Pos.of_uint_acc d acc).
Proof.
  induction d as [|d IH|d IH|d IH|d IH|d IH|d IH|d IH|d IH|d IH|d IH]; intros acc;
    cbn [digits_of fold_left Pos.of_uint_acc]; [reflexivity | ..];
    match goal with
    | |- fold_left _ _ ?z = Z.pos (Pos.of_uint_acc _ ?p) =>
        replace z with (Z.pos p) by lia
    end; apply IH.
Qed.

Lemma digits_value_of_uint (d : Decimal.uint) :
  Go.json.digits_value (digits_of d) = Z.of_N (Pos.of_uint d).
Proof.
  unfold Go.json.digits_value.
  induction d as [|d IH|d IH|d IH|d IH|d IH|d IH|d IH|d IH|d IH|d IH];
    cbn [digits_of fold_left Pos.of_uint]; [reflexivity | exact IH | ..];
    match goal with
    | |- fold_left _ _ ?z = Z.of_N (N.pos (Pos.of_uint_acc _ ?p)) =>
        change z with (Z.pos p)
    end; apply digits_acc.
Qed.

Lemma nzhead_not_D0 (u v : Decimal.uint) : Decimal.nzhead u <> Decimal.D0 v.
Proof. induction u; cbn; try discriminate. assumption. Qed.

(** The decimal digits of a positive number: no leading zero. *)
Lemma to_uint_digits (p : positive) :
  exists (d1 : Z) (ds : list Z),
    digits_of (Pos.to_uint p) = d1 :: ds /\ 49 <= d1 <= 57 /\
    Forall (fun c => 48 <= c <= 57) ds /\
    Go.json.digits_value (d1 :: ds) = Z.pos p.
Proof.
  pose proof (DecimalPos.Unsigned.of_to p) as Hof.
  pose proof (DecimalPos.Unsigned.to_of (Pos.to_uint p)) as Hto.
  rewrite Hof in Hto. cbn [N.to_uint] in Hto.
  pose proof (DecimalPos.Unsigned.to_uint_nonzero p) as Hnz.
  pose proof (digits_value_of_uint (Pos.to_uint p)) as Hval. rewrite Hof in Hval.
  pose proof (digits_of_digits (Pos.to_uint p)) as Hdig.
  destruct (Pos.to_uint p) as [|u|u|u|u|u|u|u|u|u|u] eqn:Hu;
    try (cbn [digits_of] in *; apply Forall_cons in Hdig as [_ Hdig];
         eexists _, _; repeat split; [lia | lia | exact Hdig | exact Hval]).
  - exfalso. now apply (DecimalPos.Unsigned.to_uint_nonnil p).
  - exfalso. unfold Decimal.unorm in Hto. cbn [Decimal.nzhead] in Hto.
    destruct (Decimal.nzhead u) eqn:Hh;
      [apply Hnz; exact Hto
      | rewrite <- Hto in Hh; exact (nzhead_not_D0 _ _ Hh) ..].
Qed.

Lemma Itoa_bytes (n : Z) :
  Go.bytes (Go.strconv.Itoa n)
  = match n with
    | 0 => [48]
    | Z.pos p => digits_of (Pos.to_uint p)
    | Z.neg p => 45 :: digits_of (Pos.to_uint p)
    end.
Proof.
  unfold Go.strconv.Itoa. destruct n as [|p|p]; cbn [Z.to_int NilEmpty.string_of_int].
  - reflexivity.
  - apply bytes_string_of_uint.
  - change (45 :: digits_of (Pos.to_uint p))
      with (Go.byte_of "-" :: digits_of (Pos.to_uint p)).
    rewrite <- bytes_string_of_uint. reflexivity.
Qed.

Ltac enum_digit d :=
  let H := fresh "Hcases" in
  assert (H : d = 48 \/ d = 49 \/ d = 50 \/ d = 51 \/ d = 52 \/ d = 53 \/ d = 54
              \/ d = 55 \/ d = 56 \/ d = 57) by lia;
  destruct H as [->|[->|[->|[->|[->|[->|[->|[->|[->| ->]]]]]]]]].

Lemma Itoa_number (n : Z) : number (Go.bytes (Go.strconv.Itoa n)).
Proof.
  rewrite Itoa_bytes. destruct n as [|p|p]; [constructor | |];
    destruct (to_uint_digits p) as (d1 & ds & -> & Hd1 & Hds & _); now constructor.
Qed.

Lemma forallb_isDigit (ds : list Z) :
  Forall (fun c => 48 <= c <= 57) ds -> forallb Go.json.isDigit ds = true.
Proof.
  induction 1 as [|c ds Hc _ IH]; [reflexivity|]. cbn [forallb]. rewrite IH.
  unfold Go.json.isDigit, Go.between.
  replace (48 <=? c) with true by (symmetry; apply Z.leb_le; lia).
  replace (c <=? 57) with true by (symmetry; apply Z.leb_le; lia). reflexivity.
Qed.

Lemma ParseInt_digits (d1 : Z) (ds : list Z) :
  48 <= d1 <= 57 -> Forall (fun c => 48 <= c <= 57) ds ->
  Go.json.ParseInt (d1 :: ds)
  = (let n := Go.json.digits_value (d1 :: ds) in
     if (- 2 ^ 63 <=? n) && (n <=? 2 ^ 63 - 1) then Some n else None) /\
  Go.json.ParseInt (45 :: d1 :: ds)
  = (let n := - Go.json.digits_value (d1 :: ds) in
     if (- 2 ^ 63 <=? n) && (n <=? 2 ^ 63 - 1) then Some n else None).
Proof.
  intros Hd1 Hds.
  assert (Hall : forallb Go.json.isDigit (d1 :: ds) = true).
  { apply forallb_isDigit. apply Forall_cons. now split. }
  split.
  - revert Hall. enum_digit d1; intros Hall; unfold Go.json.ParseInt;
      cbv beta iota; rewrite Hall; reflexivity.
  - unfold Go.json.ParseInt. cbv beta iota. rewrite Hall. reflexivity.
Qed.

(** strconv.ParseInt reads back what strconv.Itoa writes for an int. *)
Lemma ParseInt_Itoa (n : Z) :
  is_int n -> Go.json.ParseInt (Go.bytes (Go.strconv.Itoa n)) = Some n.
Proof.
  unfold is_int. intros Hn. rewrite Itoa_bytes. destruct n as [|p|p].
  - reflexivity.
  - destruct (to_uint_digits p) as (d1 & ds & -> & Hd1 & Hds & Hval).
    destruct (ParseInt_digits d1 ds ltac:(lia) Hds) as [-> _]. cbv zeta. rewrite Hval.
    replace (- 2 ^ 63 <=? Z.pos p) with true by (symmetry; apply Z.leb_le; lia).
    replace (Z.pos p <=? 2 ^ 63 - 1) with true by (symmetry; apply Z.leb_le; lia).
    reflexivity.
  - destruct (to_uint_digits p) as (d1 & ds & -> & Hd1 & Hds & Hval).
    destruct (ParseInt_digits d1 ds ltac:(lia) Hds) as [_ ->]. cbv zeta. rewrite Hval.
    change (- Z.pos p) with (Z.neg p).
    replace (- 2 ^ 63 <=? Z.neg p) with true by (symmetry; apply Z.leb_le; lia).
    replace (Z.neg p <=? 2 ^ 63 - 1) with true by (symmetry; apply Z.leb_le; lia).
    reflexivity.
Qed.

Lemma literal_number (num : list Z) :
  number num -> Go.json.literal num = Some (Go.json.JNumber num).
Proof.
  destruct 1 as [|d1 ds Hd1 _|d1 ds Hd1 _]; [reflexivity | | reflexivity].
  enum_digit d1; reflexivity || lia.
Qed.

(** *** The scanner and the builder over a number and the end of the object *)

Lemma digit_step (c : Z) (top : bool) (ps : list Go.json.parse) (n : Z) :
  48 <= c <= 57 ->
  Go.json.do_step (scanning Go.json.state1 top ps n) c
  = (scanning Go.json.state1 top ps n, Go.json.scanContinue).
Proof. intros Hc. enum_digit c; reflexivity. Qed.

Lemma valid_digits (ds rest : list Z) (top : bool) (ps : list Go.json.parse) :
  Forall (fun c => 48 <= c <= 57) ds ->
  valid_from Go.json.state1 top ps rest ->
  valid_from Go.json.state1 top ps (ds ++ rest).
Proof.
  intros Hds Hrest. induction Hds as [|c ds Hc _ IH]; [exact Hrest|]. cbn [app].
  eapply valid_step; [intros n; now apply digit_step | discriminate | exact IH].
Qed.

Lemma build_digits (ds rest : list Z) (top : bool) (ps : list Go.json.parse) (n : Z)
      (stack : list Go.json.frame) (tv : option Go.json.jvalue) :
  Forall (fun c => 48 <= c <= 57) ds ->
  forall item : list Z,
    Go.json.build (ds ++ rest) (scanning Go.json.state1 top ps n)
                  (building stack (Some item) tv)
    = Go.json.build rest (scanning Go.json.state1 top ps n)
                    (building stack (Some (item ++ ds)) tv).
Proof.
  induction 1 as [|c ds Hc _ IH]; intros item; cbn [app]; [now rewrite app_nil_r|].
  cbn [Go.json.build]. rewrite digit_step by assumption.
  cbn. unfold building in IH. rewrite IH. now rewrite <- app_assoc.
Qed.

Lemma valid_spaces (ws : list Z) :
  Forall space ws -> valid_from Go.json.stateEndTop true [] ws.
Proof.
  induction 1 as [|c ws Hc _ IH]; [intros n; reflexivity|].
  destruct Hc as [->|[->|[->| ->]]];
    (eapply valid_step; [intros n; cbv; reflexivity | discriminate | exact IH]).
Qed.

Lemma build_spaces (ws : list Z) (n : Z) (tv : option Go.json.jvalue) :
  Forall space ws ->
  Go.json.build ws (scanning Go.json.stateEndTop true [] n) (building [] None tv)
  = building [] None tv.
Proof.
  induction 1 as [|c ws Hc _ IH]; [reflexivity|].
  cbn [Go.json.build].
  destruct Hc as [->|[->|[->| ->]]]; exact IH.
Qed.

(** The last member of the object, a number, and the closing brace. *)
Lemma valid_number (num ws : list Z) :
  number num -> Forall space ws ->
  valid_from Go.json.stateBeginValue false [Go.json.parseObjectValue] (num ++ 125 :: ws).
Proof.
  intros Hnum Hws.
  assert (Hend : forall st, st = Go.json.state0 \/ st = Go.json.state1 ->
                            valid_from st false [Go.json.parseObjectValue] (125 :: ws)).
  { intros st [-> | ->];
      (eapply valid_step; [intros n; cbv; reflexivity | discriminate
                          | now apply valid_spaces]). }
  destruct Hnum as [|d1 ds Hd1 Hds|d1 ds Hd1 Hds]; cbn [app].
  - eapply valid_step; [intros n; cbv; reflexivity | discriminate | apply Hend; tauto].
  - apply (valid_step _ Go.json.state1 _ false _ [Go.json.parseObjectValue]
                       Go.json.scanBeginLiteral);
      [intros n; enum_digit d1; reflexivity || lia | discriminate
      | apply valid_digits; [exact Hds | apply Hend; tauto]].
  - eapply valid_step; [intros n; cbv; reflexivity | discriminate |].
    apply (valid_step _ Go.json.state1 _ false _ [Go.json.parseObjectValue]
                      Go.json.scanContinue);
      [intros n; enum_digit d1; reflexivity || lia | discriminate
      | apply valid_digits; [exact Hds | apply Hend; tauto]].
Qed.

Lemma build_number (num ws : list Z) (n : Z) (key : list Z)
      (ms : list (list Z * Go.json.jvalue)) :
  number num -> Forall space ws ->
  Go.json.build (num ++ 125 :: ws)
                (scanning Go.json.stateBeginValue false [Go.json.parseObjectValue] n)
                (building [Go.json.FObject ms (Some key)] None None)
  = building [] None (Some (Go.json.JObject (ms ++ [(key, Go.json.JNumber num)]))).
Proof.
  intros Hnum Hws.
  assert (Hend : forall st, st = Go.json.state0 \/ st = Go.json.state1 ->
            Go.json.build (125 :: ws) (scanning st false [Go.json.parseObjectValue] n)
                          (building [Go.json.FObject ms (Some key)] (Some num) None)
            = building [] None (Some (Go.json.JObject (ms ++ [(key, Go.json.JNumber num)])))).
  { intros st Hst.
    rewrite (build_step_eq _ Go.json.stateEndTop _ true _ [] Go.json.scanEndObject)
      by (destruct Hst as [-> | ->]; reflexivity).
    cbn [Go.json.build_step Go.json.flush Go.json.lit building].
    rewrite (literal_number num Hnum). now apply build_spaces. }
  pose proof Hnum as Hshape.
  destruct Hshape as [|d1 ds Hd1 Hds|d1 ds Hd1 Hds]; cbn [app].
  - erewrite build_step_eq by (cbv; reflexivity). apply Hend. tauto.
  - rewrite (build_step_eq _ Go.json.state1 _ false _ [Go.json.parseObjectValue]
                           Go.json.scanBeginLiteral)
      by (enum_digit d1; reflexivity || lia).
    change (Go.json.build_step (building [Go.json.FObject ms (Some key)] None None) d1
                               Go.json.scanBeginLiteral)
      with (building [Go.json.FObject ms (Some key)] (Some [d1]) None).
    rewrite build_digits by assumption. apply Hend. tauto.
  - erewrite build_step_eq by (cbv; reflexivity).
    rewrite (build_step_eq _ Go.json.state1 _ false _ [Go.json.parseObjectValue]
                           Go.json.scanContinue)
      by (enum_digit d1; reflexivity || lia).
    change (Go.json.build_step
              (Go.json.build_step (building [Go.json.FObject ms (Some key)] None None) 45
                                  Go.json.scanBeginLiteral) d1 Go.json.scanContinue)
      with (building [Go.json.FObject ms (Some key)] (Some [45; d1]) None).
    rewrite build_digits by assumption. apply Hend. tauto.
Qed.

(** *** The object of a Response *)

Lemma ascii_bytes (s : string) :
  ascii_text s -> Forall (fun b => 0 <= b < 128) (Go.bytes s).
Proof.
  unfold ascii_text. intros Hs. pose proof (bytes_are_bytes s) as Hb.
  rewrite Forall_forall in *. intros b Hin.
  specialize (Hs b Hin). specialize (Hb b Hin). unfold is_byte in Hb. lia.
Qed.

Lemma valid_wire (im it num tail : list Z) :
  encoded im -> encoded it -> number num -> Forall space tail ->
  valid_from Go.json.stateBeginValue false [] (wire im it num tail).
Proof.
  intros Him Hit Hnum Htail. unfold wire.
  repeat match goal with
         | |- context [Go.json.field_name ?s] =>
             let v := eval vm_compute in (Go.json.field_name s) in
             change (Go.json.field_name s) with v
         end.
  cbn [app].
  repeat (eapply valid_step; [intros n; cbv; reflexivity | discriminate |]).
  apply valid_encoded; [exact Him|]. cbn [app].
  repeat (eapply valid_step; [intros n; cbv; reflexivity | discriminate |]).
  apply valid_encoded; [exact Hit|]. cbn [app].
  repeat (eapply valid_step; [intros n; cbv; reflexivity | discriminate |]).
  now apply valid_number.
Qed.

Ltac build_one :=
  erewrite build_step_eq by (cbv; reflexivity);
  cbn [Go.json.build_step Go.json.flush Go.json.put Go.json.open Go.json.close
       Go.json.lit Go.json.stack Go.json.top Go.json.sync building app Go.json.lost];
  try rewrite literal_string_coerce by assumption;
  try match goal with
      | |- context [Go.json.literal ?l] =>
          lazymatch l with
          | context [Go.json.string_loop] => fail
          | _ => let v := eval vm_compute in (Go.json.literal l) in
                 change (Go.json.literal l) with v
          end
      end;
  cbn [Go.json.build_step Go.json.flush Go.json.put Go.json.open Go.json.close
       Go.json.lit Go.json.stack Go.json.top Go.json.sync building app Go.json.lost].

Ltac fold_builder :=
  match goal with
  | |- context [Go.json.Build_builder ?a ?b ?c true] =>
      change (Go.json.Build_builder a b c true) with (building a b c)
  end.

Lemma build_wire (bm bt num tail : list Z) :
  Forall is_byte bm -> Forall is_byte bt ->
  number num -> Forall space tail ->
  Go.json.build
    (wire (Go.json.string_loop (length bm) bm) (Go.json.string_loop (length bt) bt)
          num tail)
    (scanning Go.json.stateBeginValue false [] 0) (building [] None None)
  = building [] None
      (Some (Go.json.JObject
               [(Go.bytes "message", Go.json.JString (coerce (length bm) bm));
                (Go.bytes "error", Go.json.JString (coerce (length bt) bt));
                (Go.bytes "statusCode", Go.json.JNumber num)])).
Proof.
  intros Hm Ht Hnum Htail. unfold wire.
  repeat match goal with
         | |- context [Go.json.field_name ?s] =>
             let v := eval vm_compute in (Go.json.field_name s) in
             change (Go.json.field_name s) with v
         end.
  cbn [app].
  repeat build_one. fold_builder.
  rewrite build_encoded by (apply string_loop_encoded, Hm). cbn [app].
  repeat build_one. fold_builder.
  rewrite build_encoded by (apply string_loop_encoded, Ht). cbn [app].
  repeat build_one. fold_builder.
  rewrite build_number by assumption. reflexivity.
Qed.

Lemma space_bytes (tail : list Z) : Forall space tail -> Forall is_byte tail.
Proof.
  intros H. eapply Forall_impl; [exact H|]. unfold space, is_byte. cbn. intros; lia.
Qed.

Lemma Marshal_wire (r : Response) (tail : list Z) :
  Forall space tail ->
  Go.bytes (Go.json.Marshal r +:+ Go.str tail)
  = wire (Go.json.string_loop (length (Go.bytes (Message r))) (Go.bytes (Message r)))
         (Go.json.string_loop (length (Go.bytes (Error r))) (Go.bytes (Error r)))
         (Go.bytes (Go.strconv.Itoa (StatusCode r))) tail.
Proof.
  intros Htail. unfold Go.json.Marshal. rewrite <- str_app.
  assert (Hlist :
            (123 :: Go.json.field_name "message" ++ Go.json.encode_string (Message r)
             ++ 44 :: Go.json.field_name "error" ++ Go.json.encode_string (Error r)
             ++ 44 :: Go.json.field_name "statusCode"
             ++ Go.bytes (Go.strconv.Itoa (StatusCode r)) ++ [125]) ++ tail
            = wire (Go.json.string_loop (length (Go.bytes (Message r))) (Go.bytes (Message r)))
                   (Go.json.string_loop (length (Go.bytes (Error r))) (Go.bytes (Error r)))
                   (Go.bytes (Go.strconv.Itoa (StatusCode r))) tail).
  { unfold wire, Go.json.encode_string.
    repeat (cbn [app] || rewrite <- app_assoc). reflexivity. }
  rewrite Hlist. apply bytes_str.
  unfold wire, Go.json.field_name. cbn [app].
  repeat first
    [ apply Forall_nil_2
    | apply Forall_cons_2; [unfold is_byte; lia|]
    | apply Forall_app_2
    | apply bytes_are_bytes
    | apply encoded_bytes, string_loop_encoded, bytes_are_bytes
    | apply space_bytes; assumption ].
Qed.

Lemma find_fields :
  Go.json.find_field (Go.bytes "message") = Some Go.json.fMessage /\
  Go.json.find_field (Go.bytes "error") = Some Go.json.fError /\
  Go.json.find_field (Go.bytes "statusCode") = Some Go.json.fStatusCode.
Proof. repeat split; vm_compute; reflexivity. Qed.

Lemma member_message (r : Response) (saved : option error) (s : list Z) :
  Go.json.member (r, saved) (Go.bytes "message", Go.json.JString s)
  = ({| Message := Go.str s; Error := Error r; StatusCode := StatusCode r |}, saved).
Proof.
  destruct find_fields as (H & _ & _). unfold Go.json.member. rewrite H. reflexivity.
Qed.

Lemma member_error (r : Response) (saved : option error) (s : list Z) :
  Go.json.member (r, saved) (Go.bytes "error", Go.json.JString s)
  = ({| Message := Message r; Error := Go.str s; StatusCode := StatusCode r |}, saved).
Proof.
  destruct find_fields as (_ & H & _). unfold Go.json.member. rewrite H. reflexivity.
Qed.

Lemma member_statusCode (r : Response) (saved : option error) (n : Z) :
  is_int n ->
  Go.json.member (r, saved) (Go.bytes "statusCode", Go.json.JNumber (Go.bytes (Go.strconv.Itoa n)))
  = ({| Message := Message r; Error := Error r; StatusCode := n |}, saved).
Proof.
  intros Hn. destruct find_fields as (_ & _ & H). unfold Go.json.member.
  rewrite H, (ParseInt_Itoa _ Hn). reflexivity.
Qed.

(** The value that the decoder builds from what json.Marshal wrote. *)
Lemma parse_Marshal (r : Response) (tail : list Z) :
  Forall space tail ->
  Go.json.parse_value (Go.bytes (Go.json.Marshal r +:+ Go.str tail))
  = Some (Go.json.JObject
            [(Go.bytes "message", Go.json.JString (Go.bytes (coerced (Message r))));
             (Go.bytes "error", Go.json.JString (Go.bytes (coerced (Error r))));
             (Go.bytes "statusCode",
              Go.json.JNumber (Go.bytes (Go.strconv.Itoa (StatusCode r))))]).
Proof.
  intros Htail. rewrite Marshal_wire by assumption.
  unfold Go.json.parse_value.
  change Go.json.reset with (scanning Go.json.stateBeginValue false [] 0).
  change {| Go.json.stack := []; Go.json.lit := None; Go.json.top := None;
            Go.json.sync := true |} with (building [] None None).
  rewrite (build_wire _ _ _ _ (bytes_are_bytes _) (bytes_are_bytes _)
             (Itoa_number _) Htail).
  cbn [building Go.json.sync Go.json.stack Go.json.top].
  unfold coerced. rewrite !bytes_str by (apply coerce_bytes, bytes_are_bytes).
  reflexivity.
Qed.

(** json.Unmarshal gives back the Response that json.Marshal wrote, its
    texts read rune by rune, when its code is an int; white space may
    follow. *)
Lemma Unmarshal_Marshal_coerced (r v : Response) (tail : list Z) :
  is_int (StatusCode r) -> Forall space tail ->
  Go.json.Unmarshal (Go.json.Marshal r +:+ Go.str tail) v
  = ({| Message := coerced (Message r); Error := coerced (Error r);
        StatusCode := StatusCode r |}, None).
Proof.
  intros Hn Htail. unfold Go.json.Unmarshal.
  rewrite (parse_Marshal _ _ Htail). rewrite Marshal_wire by assumption.
  change Go.json.reset with (scanning Go.json.stateBeginValue false [] 0).
  rewrite (valid_wire _ _ _ _ (string_loop_encoded _ _ (bytes_are_bytes _))
             (string_loop_encoded _ _ (bytes_are_bytes _))
             (Itoa_number _) Htail 0).
  cbn [fold_left].
  rewrite member_message, member_error, (member_statusCode _ _ _ Hn).
  cbn [Message Error StatusCode]. rewrite !str_bytes. reflexivity.
Qed.

Lemma coerced_ascii (s : string) : ascii_text s -> coerced s = s.
Proof.
  intros Hs. unfold coerced.
  rewrite coerce_valid by (apply ascii_valid, ascii_bytes, Hs || lia).
  apply str_bytes.
Qed.

(** json.Unmarshal gives back the Response that json.Marshal wrote, when
    its texts are ASCII and its code an int; white space may follow. *)
Lemma Unmarshal_Marshal (r v : Response) (tail : list Z) :
  ascii_text (Message r) -> ascii_text (Error r) -> is_int (StatusCode r) ->
  Forall space tail ->
  Go.json.Unmarshal (Go.json.Marshal r +:+ Go.str tail) v = (r, None).
Proof.
  intros Hm He Hn Htail. rewrite (Unmarshal_Marshal_coerced _ _ _ Hn Htail).
  rewrite (coerced_ascii _ Hm), (coerced_ascii _ He). destruct r. reflexivity.
Qed.

(** ** The JSON of an error, read back *)

Lemma ascii_text_forallb (s : string) :
  forallb (fun b => b <? 128) (Go.bytes s) = true -> ascii_text s.
Proof.
  unfold ascii_text. intros H. apply List.Forall_forall. intros b Hb.
  rewrite forallb_forall in H. apply Z.ltb_lt, H, Hb.
Qed.

(** Every status text of the table is ASCII. *)
Lemma StatusText_ascii (c : Z) : ascii_text (Go.http.StatusText c).
Proof.
  apply ascii_text_forallb.
  destruct c as [|p|p]; [reflexivity| |reflexivity].
  do 10 (try (destruct p as [p|p|]; try (vm_compute; reflexivity))).
Qed.

Lemma append_empty (s : string) : s +:+ EmptyString = s.
Proof.
  induction s as [|a s IH]; [reflexivity|].
  change (String a (s +:+ EmptyString) = String a s). now rewrite IH.
Qed.

Lemma space_newline : Forall space [10].
Proof. apply Forall_cons_2; [unfold space; lia | apply Forall_nil_2]. Qed.

Section round_trips.
Variable isPrint : Z -> bool.
Variable Sprintf : string -> list value -> string.
Context {W : http.Writer}.

#[local] Abbreviation std := (Go.std isPrint Sprintf).

Lemma MarshalJSON_message_of (e : httpError) :
  httpError_MarshalJSON (L := std) e
  = Go.json.Marshal {| Message := message_of (L := std) e;
                       Error := Go.http.StatusText (code e);
                       StatusCode := code e |}.
Proof. reflexivity. Qed.

Lemma valid_Marshal (r : Response) (tail : list Z) :
  Forall space tail ->
  Go.json.checkValid (Go.bytes (Go.json.Marshal r +:+ Go.str tail)) Go.json.reset = None.
Proof.
  intros Htail. rewrite Marshal_wire by assumption.
  change Go.json.reset with (scanning Go.json.stateBeginValue false [] 0).
  apply (valid_wire _ _ _ _ (string_loop_encoded _ _ (bytes_are_bytes _))
           (string_loop_encoded _ _ (bytes_are_bytes _)) (Itoa_number _) Htail 0).
Qed.

(** FromResponse on a body that json.Marshal wrote, under a media type
    that is not read as text. *)
Lemma FromResponse_decodes (r : http.Response) (p : Response) (tail : list Z) :
  ascii_text (Message p) -> ascii_text (Error p) -> is_int (StatusCode p) ->
  Forall space tail ->
  http.Body r = (Go.json.Marshal p +:+ Go.str tail, None) ->
  is_text_mediatype
    (fst (Go.mime.ParseMediaType (http.Header_Get (http.Header r) "Content-Type")))
  = false ->
  FromResponse (L := std) r
  = New (http.StatusCode r) (Some (errors_New (Message p))).
Proof.
  intros Hm He Hn Htail Hbody Hmedia. unfold FromResponse. rewrite Hbody.
  cbn [mime_ParseMediaType json_Unmarshal std Go.std].
  destruct (Go.mime.ParseMediaType _) as [mediatype parseErr].
  cbn [fst] in Hmedia. rewrite Hmedia.
  rewrite (Unmarshal_Marshal _ _ _ Hm He Hn Htail). reflexivity.
Qed.

(** C6, as amended.  MarshalJSON gives json.Marshal a Response whose
    message is the text of the cause, or the status text when there is no
    cause, whose error is the status text and whose statusCode is the code.
    What json.Marshal writes is well-formed JSON: one object with exactly
    the members message, error and statusCode, in this order.  Its message
    is the text read rune by rune, which is the text itself when the text
    is valid UTF-8; its error is the status text; its statusCode is the
    decimal of the code, which json.Unmarshal reads back when the code is
    an int. *)
Theorem MarshalJSON_payload (e : httpError) :
  (forall L : Library,
      httpError_MarshalJSON e
      = json_Marshal
          {| Message := match httpError_Unwrap e with
                        | Some cause => error_Error cause
                        | None => http_StatusText (httpError_StatusCode e)
                        end;
             Error := http_StatusText (httpError_StatusCode e);
             StatusCode := httpError_StatusCode e |}) /\
  httpError_MarshalJSON (L := std) e
  = "{" +:+ dquote +:+ "message" +:+ dquote +:+ ":"
        +:+ Go.str (Go.json.encode_string (message_of (L := std) e))
    +:+ "," +:+ dquote +:+ "error" +:+ dquote +:+ ":"
        +:+ Go.str (Go.json.encode_string (Go.http.StatusText (code e)))
    +:+ "," +:+ dquote +:+ "statusCode" +:+ dquote +:+ ":" +:+ fmt_d (code e)
    +:+ "}" /\
  Go.json.checkValid (Go.bytes (httpError_MarshalJSON (L := std) e)) Go.json.reset
  = None /\
  Go.json.parse_value (Go.bytes (httpError_MarshalJSON (L := std) e))
  = Some (Go.json.JObject
            [(Go.bytes "message",
              Go.json.JString (Go.bytes (coerced (message_of (L := std) e))));
             (Go.bytes "error",
              Go.json.JString (Go.bytes (Go.http.StatusText (code e))));
             (Go.bytes "statusCode", Go.json.JNumber (Go.bytes (fmt_d (code e))))]) /\
  (valid_utf8 (Go.bytes (message_of (L := std) e)) ->
   coerced (message_of (L := std) e) = message_of (L := std) e) /\
  (is_int (code e) ->
   forall v : Response,
     Go.json.Unmarshal (httpError_MarshalJSON (L := std) e) v
     = ({| Message := coerced (message_of (L := std) e);
           Error := Go.http.StatusText (code e);
           StatusCode := code e |}, None)).
Proof.
  split; [intros L; destruct e; reflexivity|].
  rewrite MarshalJSON_message_of.
  split; [exact (Marshal_shape _)|].
  split.
  { rewrite <- (append_empty (Go.json.Marshal _)).
    apply (valid_Marshal _ []). constructor. }
  split.
  { rewrite <- (append_empty (Go.json.Marshal _)).
    rewrite (parse_Marshal _ []) by constructor. cbn [Message Error StatusCode].
    rewrite (coerced_ascii _ (StatusText_ascii _)). reflexivity. }
  split.
  { intros Hvalid. unfold coerced. rewrite coerce_valid by (assumption || lia).
    apply str_bytes. }
  intros Hn v. rewrite <- (append_empty (Go.json.Marshal _)).
  rewrite (Unmarshal_Marshal_coerced _ _ []) by (assumption || constructor).
  cbn [Message Error StatusCode].
  rewrite (coerced_ascii _ (StatusText_ascii _)). reflexivity.
Qed.

(** X7.  The text that MarshalJSON returns is well-formed JSON for every
    HTTP error, whatever its code and the bytes of the text of its cause:
    the scanner of encoding/json accepts it, alone and followed by the
    newline that the encoder of RespondJSON adds. *)
Theorem MarshalJSON_valid_json (e : httpError) :
  Go.json.checkValid (Go.bytes (httpError_MarshalJSON (L := std) e)) Go.json.reset = None /\
  Go.json.checkValid (Go.bytes (httpError_MarshalJSON (L := std) e +:+ newline))
    Go.json.reset = None.
Proof.
  rewrite MarshalJSON_message_of. split.
  - rewrite <- (append_empty (Go.json.Marshal _)).
    apply (valid_Marshal _ []). constructor.
  - apply (valid_Marshal _ [10]), space_newline.
Qed.

(** X8.  Decoding the text of MarshalJSON gives the payload back: the
    message is the text of the cause, or the status text without a cause,
    the error is the status text and the status code is the code, whatever
    the struct held before.  The text of the cause is ASCII and the code
    an int. *)
Theorem MarshalJSON_decodes (e : httpError) (v : Response) :
  ascii_text (message_of (L := std) e) -> is_int (code e) ->
  Go.json.Unmarshal (httpError_MarshalJSON (L := std) e) v
  = ({| Message := message_of (L := std) e;
        Error := Go.http.StatusText (code e);
        StatusCode := code e |}, None).
Proof.
  intros Hm Hn. rewrite MarshalJSON_message_of.
  rewrite <- (append_empty (Go.json.Marshal _)).
  apply (Unmarshal_Marshal _ _ []); try assumption.
  - apply StatusText_ascii.
  - constructor.
Qed.

(** X9.  Round trip through the wire: a response that carries the JSON of
    an HTTP error at its status code, under a Content-Type that is not one
    of the three text types, comes back from FromResponse as the HTTP error
    of that code whose cause has the message as its text; a missing cause
    comes back as the status text.  The error that comes back has the same
    JSON as the one that was sent. *)
Theorem FromResponse_of_MarshalJSON (e : httpError) (r : http.Response) :
  ascii_text (message_of (L := std) e) -> is_int (code e) ->
  http.Body r = (httpError_MarshalJSON (L := std) e, None) ->
  http.StatusCode r = code e ->
  is_text_mediatype
    (fst (Go.mime.ParseMediaType (http.Header_Get (http.Header r) "Content-Type")))
  = false ->
  FromResponse (L := std) r
  = New (code e) (Some (errors_New (message_of (L := std) e))) /\
  exists back : httpError,
    FromResponse (L := std) r = ptr back /\
    httpError_StatusCode back = httpError_StatusCode e /\
    httpError_MarshalJSON (L := std) back = httpError_MarshalJSON (L := std) e.
Proof.
  intros Hm Hn Hbody Hcode Hmedia.
  assert (Hback : FromResponse (L := std) r
                  = New (code e) (Some (errors_New (message_of (L := std) e)))).
  { rewrite <- Hcode.
    apply (FromResponse_decodes r
             {| Message := message_of (L := std) e;
                Error := Go.http.StatusText (code e);
                StatusCode := code e |} []); cbn [Message Error StatusCode];
      try assumption.
    - apply StatusText_ascii.
    - constructor.
    - rewrite Hbody. cbn [Go.str]. now rewrite append_empty. }
  split; [exact Hback|]. eexists. split; [exact Hback|]. split; reflexivity.
Qed.



End round_trips.

(** C6, as stated.  The message of the object is not the text of the cause
    for every HTTP error: a byte that is not UTF-8, here 0xFF, is written
    as the escape of U+FFFD, and read back as the three bytes of U+FFFD. *)
Lemma MarshalJSON_payload_not_utf8 :
  ~ (forall e : httpError,
        exists rest : list (list Z * Go.json.jvalue),
          Go.json.parse_value (Go.bytes (httpError_MarshalJSON (L := example_std) e))
          = Some (Go.json.JObject
                    ((Go.bytes "message",
                      Go.json.JString (Go.bytes (message_of (L := example_std) e)))
                     :: rest))).
Proof.
  intros H.
  destruct (H (mk_httpError 500 (Some (errorString (String "255" EmptyString)))))
    as [rest Hrest].
  vm_compute in Hrest. discriminate Hrest.
Qed.

(** The error of a missing cafe, its last letter with an acute accent on
    two bytes, decoded into the zero Response. *)
Lemma MarshalJSON_payload_witness :
  Go.json.Unmarshal
    (httpError_MarshalJSON (L := example_std)
       (mk_httpError 404
          (Some (errorString
                   ("no such caf" +:+ String "195" (String "169" EmptyString))))))
    Response_zero
  = ({| Message := "no such caf" +:+ String "195" (String "169" EmptyString);
        Error := "Not Found"; StatusCode := 404 |}, None).
Proof.
  destruct (MarshalJSON_payload (fun _ => true) (fun format _ => format)
              (mk_httpError 404
                 (Some (errorString
                          ("no such caf" +:+ String "195" (String "169" EmptyString))))))
    as (_ & _ & _ & _ & Hvalid & Hdecode).
  assert (Hint : is_int 404) by (unfold is_int; lia).
  etransitivity; [exact (Hdecode Hint Response_zero)|].
  rewrite Hvalid; [reflexivity|].
  change (valid_utf8 ([110; 111; 32; 115; 117; 99; 104; 32; 99; 97; 102]
                      ++ [195; 169] ++ [])).
  repeat (apply valid_ascii; [lia|]).
  eapply valid_rune; [|apply valid_nil].
  eapply (encoding2 195 169); reflexivity.
Defined.

(** ** The further properties at concrete inputs *)


(** An error of this package and a value that cannot be marshalled, on
    the writer of a server. *)
Lemma RespondJSON_failures_witness :
  respond (W := Go.http.response) 404 (inl "{}") []
  = ([http.Header_Set "Content-Type" "application/json"; http.WriteHeader 404;
      http.Write ("{}" +:+ newline)], returned None) /\
  RespondJSON (L := example_std) (W := Go.http.response) []
    (VOther (inr (errorString "json: unsupported type: chan int")))
  = ([http.Header_Set "Content-Type" "application/json"; http.WriteHeader 200],
     returned (Some (errorString "json: unsupported type: chan int"))).
Proof.
  destruct (RespondJSON_failures (L := example_std) (W := Go.http.response) [])
    as (_ & _ & Htext & Hfailure).
  split.
  - apply (Htext 404 "{}"). reflexivity.
  - apply (Hfailure (errorString "json: unsupported type: chan int")). reflexivity.
Defined.

(** An error of another package with UnmarshalJSON that reports 418. *)
Lemma RespondJSON_unmarshaler_witness :
  RespondJSON (L := example_std) (W := Go.http.response) []
    (VError (foreignError (mk_foreign "short and stout" (Some 418) true (inl "{}"))))
  = respond (W := Go.http.response) 418 (inl "{}") [].
Proof.
  apply (RespondJSON_unmarshaler (L := example_std) (W := Go.http.response) []
           (mk_foreign "short and stout" (Some 418) true (inl "{}"))).
  reflexivity.
Defined.

Lemma range_predicates_count_witness :
  (99 < 100 \/ 600 <= 99) /\ count_true (range_predicates 99) = 0%nat /\
  100 <= 204 < 400 /\ count_true (range_predicates 204) = 1%nat /\
  400 <= 404 < 600 /\ count_true (range_predicates 404) = 2%nat.
Proof.
  destruct (range_predicates_count 99) as (H99 & _ & _).
  destruct (range_predicates_count 204) as (_ & H204 & _).
  destruct (range_predicates_count 404) as (_ & _ & H404).
  assert (Ha : 99 < 100 \/ 600 <= 99) by lia.
  assert (Hb : 100 <= 204 < 400) by lia.
  assert (Hc : 400 <= 404 < 600) by lia.
  exact (conj Ha (conj (H99 Ha) (conj Hb (conj (H204 Hb) (conj Hc (proj1 (H404 Hc))))))).
Defined.

(** The error of a missing user, decoded into a struct that held other
    values. *)
Lemma MarshalJSON_decodes_witness :
  Go.json.Unmarshal
    (httpError_MarshalJSON (L := example_std)
       (mk_httpError 404 (Some (errorString "no such user"))))
    {| Message := "old"; Error := "older"; StatusCode := 7 |}
  = ({| Message := "no such user"; Error := "Not Found"; StatusCode := 404 |}, None).
Proof.
  apply (MarshalJSON_decodes (fun _ => true) (fun format _ => format)
           (mk_httpError 404 (Some (errorString "no such user")))).
  - apply ascii_text_forallb. vm_compute. reflexivity.
  - unfold is_int. cbn. lia.
Defined.

(** The same error, received under application/json. *)
Lemma FromResponse_of_MarshalJSON_witness :
  FromResponse (L := example_std)
    {| http.StatusCode := 404;
       http.Header := {[ "Content-Type" := ["application/json"] ]};
       http.Body := (httpError_MarshalJSON (L := example_std)
                       (mk_httpError 404 (Some (errorString "no such user"))),
                     None) |}
  = New 404 (Some (errors_New "no such user")).
Proof.
  apply (FromResponse_of_MarshalJSON (fun _ => true) (fun format _ => format)
           (mk_httpError 404 (Some (errorString "no such user")))).
  - apply ascii_text_forallb. vm_compute. reflexivity.
  - unfold is_int. cbn. lia.
  - reflexivity.
  - reflexivity.
  - vm_compute. reflexivity.
Defined.


